(** * ClimBot: the weather command of [bot.py]

    A shallow embedding of [get_weather], [create_weather_graph] and the
    [weather] command handler.  Python values are a small inductive type,
    exceptions are data, and every function of the bot that has an effect
    is a computation in a state-and-exception monad over a [world] that
    holds the file system, the pyplot figure stack, the chat outbox and a
    chronological list of events (log records, the HTTP request, reads of
    the provider payload).

    The libraries the bot calls are modelled by what the bot observes of
    them: [requests.get] is an arbitrary function from the URL to a
    response or an exception; [raise_for_status] raises for the 4xx and
    5xx codes.  What the code of the bot does not decide is left to a
    record of [libraries]: the Unicode case mapping of [str.capitalize]
    outside ASCII, and what [plt.bar] does with the heights it is given
    and [plt.savefig] with the figure it is to draw (the exception it
    raises, or the records it logs).  [pyplot] keeps a stack of figures;
    the chat accepts every message. *)

From Stdlib Require Import ZArith String Ascii List Floats.SpecFloat.
From stdpp Require Import base option list strings gmap fin_maps.

#[local] Set Warnings "-register-all".
Local Open Scope string_scope.
Local Open Scope Z_scope.

(** ** Python values *)

Module Py.

(** What [response.json()] can produce, which is also all the bot ever
    handles: [None], [bool], [int] (unbounded), [float] (an IEEE double,
    as [spec_float]), [str] (the bytes of its UTF-8 encoding), [list] and
    [dict] with string keys.  A dict is kept as an association list in
    insertion order; a lookup takes the first binding of the key. *)
Inductive pyval : Type :=
| PNone
| PBool (b : bool)
| PInt (n : Z)
| PFloat (f : spec_float)
| PStr (s : string)
| PList (l : list pyval)
| PDict (d : list (string * pyval)).

Fixpoint dict_lookup (k : string) (d : list (string * pyval)) : option pyval :=
  match d with
  | [] => None
  | (k', v) :: d' => if String.eqb k k' then Some v else dict_lookup k d'
  end.

(** [bool(v)]: the truth value Python gives to [v]. *)
Definition truthy (v : pyval) : bool :=
  match v with
  | PNone => false
  | PBool b => b
  | PInt n => negb (n =? 0)
  | PFloat (S754_zero _) => false
  | PFloat _ => true
  | PStr s => negb (String.eqb s "")
  | PList l => match l with [] => false | _ => true end
  | PDict d => match d with [] => false | _ => true end
  end.

(** [isinstance(v, str)]. *)
Definition is_str (v : pyval) : bool :=
  match v with PStr _ => true | _ => false end.

(** [f == n] for a float [f] and an int [n]: Python compares the two
    exactly, so a finite float [(-1)^s * m * 2^e] equals [n] only when it
    is that integer. *)
Definition float_eq_int (f : spec_float) (n : Z) : bool :=
  match f with
  | S754_zero _ => n =? 0
  | S754_infinity _ => false
  | S754_nan => false
  | S754_finite s m e =>
      let v := if s then Z.neg m else Z.pos m in
      if 0 <=? e then n =? v * 2 ^ e
      else (v mod 2 ^ (- e) =? 0) && (n =? v / 2 ^ (- e))
  end.

(** [v == n] with an int literal [n] on the right.  [bool] is a subclass
    of [int]; a value of any other type is unequal to every int. *)
Definition eq_int (v : pyval) (n : Z) : bool :=
  match v with
  | PInt k => k =? n
  | PBool b => (if b then 1 else 0) =? n
  | PFloat f => float_eq_int f n
  | _ => false
  end.

(** [format(o)] inside an f-string for a value that is [None] or a str. *)
Definition fmt (o : option string) : string :=
  match o with Some s => s | None => "None" end.

Definition of_opt (o : option string) : pyval :=
  match o with Some s => PStr s | None => PNone end.

(** [sep.join(words)]. *)
Fixpoint join (sep : string) (words : list string) : string :=
  match words with
  | [] => ""
  | [w] => w
  | w :: ws => w +:+ sep +:+ join sep ws
  end.

(** A text all of whose characters are ASCII: no byte of 128 or more. *)
Definition is_ascii_char (c : ascii) : bool := (nat_of_ascii c <? 128)%nat.

Fixpoint is_ascii (s : string) : bool :=
  match s with
  | EmptyString => true
  | String c s' => is_ascii_char c && is_ascii s'
  end.

(** Case mapping of the ASCII letters. *)
Definition upper_char (c : ascii) : ascii :=
  let n := nat_of_ascii c in
  if (97 <=? n)%nat && (n <=? 122)%nat then ascii_of_nat (n - 32) else c.

Definition lower_char (c : ascii) : ascii :=
  let n := nat_of_ascii c in
  if (65 <=? n)%nat && (n <=? 90)%nat then ascii_of_nat (n + 32) else c.

Fixpoint lower (s : string) : string :=
  match s with
  | EmptyString => EmptyString
  | String c s' => String (lower_char c) (lower s')
  end.

(** [s.capitalize()] for an ASCII text [s]: first character upper case,
    the rest lower case.  (For any text see [str_capitalize].) *)
Definition capitalize (s : string) : string :=
  match s with
  | EmptyString => EmptyString
  | String c s' => String (upper_char c) (lower s')
  end.

End Py.
Export Py.

(** ** Exceptions *)

(** The exception classes that the modelled calls raise.  The first six
    are those of [requests.exceptions], all subclasses of
    [RequestException]; the others are builtins.  All of them derive from
    [Exception]. *)
Inductive exc_class : Type :=
| ReqConnectionError
| ReqTimeout
| ReqHTTPError
| ReqTooManyRedirects
| ReqInvalidURL
| ReqJSONDecodeError
| KeyError
| IndexError
| TypeError
| AttributeError
| ValueError
| OverflowError
| OSError.

Record exn : Type := Exn { exn_class : exc_class; exn_args : list pyval }.

(** [isinstance(e, RequestException)]. *)
Definition is_RequestException (e : exn) : bool :=
  match exn_class e with
  | ReqConnectionError | ReqTimeout | ReqHTTPError
  | ReqTooManyRedirects | ReqInvalidURL | ReqJSONDecodeError => true
  | _ => false
  end.

Inductive result (A : Type) : Type :=
| Ok (a : A)
| Raise (e : exn).
Arguments Ok {A} a.
Arguments Raise {A} e.

(** ** The world the bot acts on *)

(** Severity of a log record. *)
Inductive level : Type := INFO | WARNING | ERROR.

(** A piece of an f-string: literal text, an interpolated value, or an
    interpolated exception.  A log message is kept as its pieces. *)
Inductive piece : Type :=
| Lit (s : string)
| Val (v : pyval)
| Err (e : exn).

(** A read of the provider payload: [data.get(k)], [x[k]] with a str
    key, or [x[i]] with an int index. *)
Inductive access : Type :=
| KGet (k : string)
| KItem (k : string)
| KIndex (i : nat).

Inductive event : Type :=
| EvLog (lvl : level) (msg : list piece)
| EvHttpGet (url : string)
| EvJson
| EvRead (a : access).

(** One bar of a chart. *)
Record bar : Type := Bar { bar_label : string; bar_height : pyval; bar_color : string }.

(** A pyplot figure, as far as the bot sets it up. *)
Record figure : Type := Figure {
  fig_size : option (Z * Z);  (* [None]: the default size *)
  fig_bars : list bar;
  fig_title : string;
  fig_ylabel : string
}.

(** Content of a file: an image written by [savefig], or other bytes. *)
Inductive file : Type :=
| Image (fig : figure)
| Bytes (data : string).

(** What the bot sent to the chat. *)
Inductive reply : Type :=
| SentText (text : pyval)
| SentPhoto (chat_id : Z) (photo : file).

Record world : Type := World {
  fs : gmap string file;      (* files, by path *)
  figs : list figure;         (* pyplot's open figures, current one first *)
  events : list event;        (* oldest first *)
  outbox : list reply         (* oldest first *)
}.

Definition set_fs (f : gmap string file -> gmap string file) (w : world) : world :=
  World (f (fs w)) (figs w) (events w) (outbox w).
Definition set_figs (f : list figure -> list figure) (w : world) : world :=
  World (fs w) (f (figs w)) (events w) (outbox w).
Definition emit (e : event) (w : world) : world :=
  World (fs w) (figs w) (events w ++ [e]) (outbox w).
Definition send (r : reply) (w : world) : world :=
  World (fs w) (figs w) (events w) (outbox w ++ [r]).

(** ** The monad: state and exceptions *)

Definition M (A : Type) : Type := world -> result A * world.

#[export] Instance M_ret : MRet M := fun A a w => (Ok a, w).
#[export] Instance M_bind : MBind M := fun A B k m w =>
  match m w with
  | (Ok a, w') => k a w'
  | (Raise e, w') => (Raise e, w')
  end.

Definition raise {A : Type} (c : exc_class) (args : list pyval) : M A :=
  fun w => (Raise (Exn c args), w).

Definition lift {A : Type} (r : result A) : M A := fun w => (r, w).

Definition tell (e : event) : M unit := fun w => (Ok tt, emit e w).

Definition tell_all (evs : list event) : M unit :=
  fun w => (Ok tt, World (fs w) (figs w) (events w ++ evs) (outbox w)).

(** [try: body except Exception as e: handler e].  What [body] did to the
    world before it raised stays done. *)
Definition try_except {A : Type} (body : M A) (handler : exn -> M A) : M A :=
  fun w =>
    match body w with
    | (Ok a, w') => (Ok a, w')
    | (Raise e, w') => handler e w'
    end.

(** ** Operations on Python values *)

(** [v.get(k)]: only a dict has the method; an absent key gives [None]. *)
Definition get_method (v : pyval) (k : string) : result pyval :=
  match v with
  | PDict d => Ok (default PNone (dict_lookup k d))
  | _ => Raise (Exn AttributeError [PStr "get"])
  end.

(** [v[k]] with a str key. *)
Definition getitem (v : pyval) (k : string) : result pyval :=
  match v with
  | PDict d =>
      match dict_lookup k d with
      | Some x => Ok x
      | None => Raise (Exn KeyError [PStr k])
      end
  | _ => Raise (Exn TypeError [PStr k])
  end.

(** [v[i]] with a non-negative int index [i]: an element of a list, a
    one-character str of a str; a dict read from JSON has no int key. *)
Definition index (v : pyval) (i : nat) : result pyval :=
  match v with
  | PList l =>
      match l !! i with
      | Some x => Ok x
      | None => Raise (Exn IndexError [PInt (Z.of_nat i)])
      end
  | PStr s =>
      match String.get i s with
      | Some c => Ok (PStr (String c EmptyString))
      | None => Raise (Exn IndexError [PInt (Z.of_nat i)])
      end
  | PDict _ => Raise (Exn KeyError [PInt (Z.of_nat i)])
  | _ => Raise (Exn TypeError [PInt (Z.of_nat i)])
  end.

(** The same accesses on the provider payload, each recorded as a read. *)
Definition py_get (v : pyval) (k : string) : M pyval :=
  tell (EvRead (KGet k));; lift (get_method v k).
Definition py_item (v : pyval) (k : string) : M pyval :=
  tell (EvRead (KItem k));; lift (getitem v k).
Definition py_index (v : pyval) (i : nat) : M pyval :=
  tell (EvRead (KIndex i));; lift (index v i).

(** ** The HTTP transport *)

(** A response of [requests]: the status code and what [response.json()]
    does (the decoded body, or the exception of the decoder). *)
Record response : Type := Response {
  status_code : Z;
  json : result pyval
}.

(** [response.raise_for_status()]: [HTTPError] for a 4xx or 5xx status,
    nothing for any other. *)
Definition raise_for_status (r : response) : M unit :=
  if (400 <=? status_code r) && (status_code r <? 600)
  then raise ReqHTTPError [PInt (status_code r)]
  else mret tt.

Definition response_json (r : response) : M pyval :=
  tell EvJson;; lift (json r).

Definition logging (lvl : level) (msg : list piece) : M unit :=
  tell (EvLog lvl msg).

(** The f-string of the request URL, with the two interpolated texts. *)
Definition weather_url (q appid : string) : string :=
  "http://api.openweathermap.org/data/2.5/weather?q=" +:+ q +:+
  "&appid=" +:+ appid +:+ "&units=metric".

Definition invalid_location_message (city : option string) : string :=
  "Unable to fetch weather for " +:+ fmt city +:+
  ". Please check the city name and try again.".
Definition network_failure_message : string :=
  "Unable to fetch weather due to a network issue. Please try again later.".
Definition unexpected_failure_message : string :=
  "An unexpected error occurred. Please try again later.".

(** ** The libraries *)

(** A record that a library writes through the root logger, which
    [logging.basicConfig] of the bot sets up. *)
Definition log_record : Type := level * list piece.

Definition record_event (r : log_record) : event := EvLog r.1 r.2.

(** What the code of the bot does not decide:
    - [unicode_capitalize s] is [s.capitalize()] for a text [s] that has
      characters outside ASCII (the Unicode case mapping);
    - [pyplot_bar heights] is what [plt.bar] does with the heights: the
      exception it raises while it converts them (as for [None], or an
      int beyond 64 bits), or the records it logs when it accepts them
      (as for str heights, which it puts on a category axis);
    - [pyplot_savefig fig] is what [plt.savefig] does with the figure it
      is to draw: the exception it raises (a text or a height it cannot
      draw), or the records it logs when it has drawn it.  The working
      directory is writable: a figure that is drawn is written. *)
Record libraries : Type := Libraries {
  unicode_capitalize : string -> string;
  pyplot_bar : list pyval -> result (list log_record);
  pyplot_savefig : figure -> result (list log_record)
}.

Section Bot.

Variable lib : libraries.

(** The module globals read from the environment ([None] when unset), and
    the transport: what [requests.get] does for a URL. *)
Variable WEATHER_API_KEY : option string.
Variable DEFAULT_LOCATION : option string.
Variable requests_get : string -> result response.

(** [s.capitalize()]. *)
Definition str_capitalize (s : string) : string :=
  if is_ascii s then capitalize s else unicode_capitalize lib s.

(** [v.capitalize()]: a method of str only. *)
Definition capitalize_method (v : pyval) : result pyval :=
  match v with
  | PStr s => Ok (PStr (str_capitalize s))
  | _ => Raise (Exn AttributeError [PStr "capitalize"])
  end.

Definition http_get (url : string) : M response :=
  tell (EvHttpGet url);; lift (requests_get url).

(** Lines 30 to 44: from the decoded payload to the value returned. *)
Definition get_weather_payload (city : option string) (data : pyval) : M pyval :=
  cod ← py_get data "cod";
  if negb (eq_int cod 200) then
    message ← py_get data "message";
    logging WARNING [Lit "Weather fetch failed for "; Val (of_opt city);
                     Lit ". Error: "; Val message];;
    mret (PStr (invalid_location_message city))
  else
    w ← py_item data "weather";
    w0 ← py_index w 0;
    d ← py_item w0 "description";
    weather ← lift (capitalize_method d);
    m ← py_item data "main";
    temp ← py_item m "temp";
    m' ← py_item data "main";
    humidity ← py_item m' "humidity";
    let weather_info :=
      PDict [("description", weather); ("temperature", temp);
             ("humidity", humidity)] in
    logging INFO [Lit "Weather data for "; Val (of_opt city); Lit ": ";
                  Val weather_info];;
    mret weather_info.

(** The body of the [try] of [get_weather]. *)
Definition get_weather_try (city : option string) : M pyval :=
  logging INFO [Lit "Fetching weather for "; Val (of_opt city); Lit "..."];;
  let url := weather_url (fmt city) (fmt WEATHER_API_KEY) in
  response ← http_get url;
  raise_for_status response;;
  data ← response_json response;
  get_weather_payload city data.

(** The two [except] clauses, tried in order. *)
Definition get_weather_except (e : exn) : M pyval :=
  if is_RequestException e then
    logging ERROR [Lit "Request error: "; Err e];;
    mret (PStr network_failure_message)
  else
    logging ERROR [Lit "Unexpected error: "; Err e];;
    mret (PStr unexpected_failure_message).

Definition get_weather (city : option string) : M pyval :=
  try_except (get_weather_try city) get_weather_except.

(** *** pyplot *)

Definition new_figure (size : option (Z * Z)) : figure :=
  Figure size [] "" "".

(** pyplot's current figure is the first of the open ones; a call that
    needs one when none is open first opens a default one. *)
Definition on_current (f : figure -> figure) (w : world) : world :=
  match figs w with
  | [] => set_figs (fun _ => [f (new_figure None)]) w
  | g :: gs => set_figs (fun _ => f g :: gs) w
  end.

Definition current (w : world) : figure :=
  match figs w with
  | [] => new_figure None
  | g :: _ => g
  end.

(** [plt.figure(figsize=size)]: a new figure, made current. *)
Definition plt_figure (size : Z * Z) : M unit :=
  fun w => (Ok tt, set_figs (fun gs => new_figure (Some size) :: gs) w).

Fixpoint make_bars (labels : list string) (values : list pyval)
    (colors : list string) : list bar :=
  match labels, values, colors with
  | l :: ls, v :: vs, c :: cs => Bar l v c :: make_bars ls vs cs
  | _, _, _ => []
  end.

(** [plt.bar(labels, values, color=colors)]: the library converts the
    heights; when it raises, the call raises; when it accepts them, its
    records are logged and the bars join the current figure. *)
Definition add_bars (bars : list bar) : M unit :=
  fun w => (Ok tt,
    on_current (fun g => Figure (fig_size g) (fig_bars g ++ bars)
                           (fig_title g) (fig_ylabel g)) w).

Definition plt_bar (labels : list string) (values : list pyval)
    (colors : list string) : M unit :=
  records ← lift (pyplot_bar lib values);
  tell_all (map record_event records);;
  add_bars (make_bars labels values colors).

Definition plt_title (t : string) : M unit :=
  fun w => (Ok tt,
    on_current (fun g => Figure (fig_size g) (fig_bars g) t (fig_ylabel g)) w).

Definition plt_ylabel (l : string) : M unit :=
  fun w => (Ok tt,
    on_current (fun g => Figure (fig_size g) (fig_bars g) (fig_title g) l) w).

(** [plt.savefig(path)]: the library draws the current figure; when it
    raises, the call raises and the file is as it was; otherwise its
    records are logged and the figure becomes the content of the file,
    whatever the file held. *)
Definition plt_savefig (path : string) : M unit :=
  fun w =>
    let w' := on_current (fun g => g) w in
    match pyplot_savefig lib (current w') with
    | Raise e => (Raise e, w')
    | Ok records =>
        (Ok tt,
         set_fs (fun files => <[path := Image (current w')]> files)
           (World (fs w') (figs w')
              (events w' ++ map record_event records) (outbox w')))
    end.

(** [plt.close()]: closes the current figure, if there is one. *)
Definition plt_close : M unit :=
  fun w => (Ok tt, set_figs (fun gs => tail gs) w).

(** *** [create_weather_graph] *)

Definition create_weather_graph (city : option string) (weather_data : pyval)
    : M unit :=
  let labels := ["Temperature"; "Humidity"] in
  temperature ← lift (getitem weather_data "temperature");
  humidity ← lift (getitem weather_data "humidity");
  let values := [temperature; humidity] in
  plt_figure (8, 6);;
  plt_bar labels values ["skyblue"; "lightgreen"];;
  plt_title ("Weather in " +:+ fmt city);;
  plt_ylabel "Values";;
  plt_savefig "weather.png";;
  plt_close.

(** *** The [weather] command *)

(** [update.message.reply_text(text)]: the message joins the outbox. *)
Definition reply_text (text : pyval) : M unit :=
  fun w => (Ok tt, send (SentText text) w).

(** [open(path, "rb")]: the content of the file, [OSError] when there is
    no such file. *)
Definition open_rb (path : string) : M file :=
  fun w =>
    match fs w !! path with
    | Some f => (Ok f, w)
    | None => (Raise (Exn OSError [PStr path]), w)
    end.

(** [context.bot.send_photo(chat_id=chat_id, photo=photo)]. *)
Definition send_photo (chat_id : Z) (photo : file) : M unit :=
  fun w => (Ok tt, send (SentPhoto chat_id photo) w).

(** The location of a command: the words joined, or the default. *)
Definition location (args : list string) : option string :=
  match args with
  | [] => DEFAULT_LOCATION
  | _ => Some (join " " args)
  end.

(** The test of the handler on what [get_weather] returned. *)
Definition is_error_outcome (weather_data : pyval) : bool :=
  negb (truthy weather_data) || is_str weather_data.

Definition weather (chat_id : Z) (args : list string) : M unit :=
  let city := location args in
  weather_data ← get_weather city;
  if is_error_outcome weather_data then
    reply_text weather_data
  else
    create_weather_graph city weather_data;;
    photo ← open_rb "weather.png";
    send_photo chat_id photo.

(** *** The static commands *)

(** The line feed of the text literals. *)
Definition nl : string := String (ascii_of_nat 10) EmptyString.

Definition intro_text : string :=
  "Hello! I am WeatherBot, your personal weather assistant." +:+ nl +:+
  "I can provide you with the current weather and a graphical representation of the temperature and humidity." +:+ nl +:+ nl +:+
  "You can use the following command to interact with me:" +:+ nl +:+
  "- `/weather [city name]`: Get the weather for any city and see a graphical representation.".

Definition help_text : string :=
  "Need help? Here are the commands you can use:" +:+ nl +:+
  "- `/start`: Start the bot and get an introduction." +:+ nl +:+
  "- `/weather [city name]`: Get the weather for any city and see a graphical representation." +:+ nl +:+
  "- `/help`: Display this help message." +:+ nl +:+
  "- `/menu`: Display all available commands.".

Definition menu_text : string :=
  "Here are all the available commands:" +:+ nl +:+
  "- `/start`: Start the bot and get an introduction." +:+ nl +:+
  "- `/weather [city name]`: Get the weather for any city and see a graphical representation." +:+ nl +:+
  "- `/help`: Display help information." +:+ nl +:+
  "- `/menu`: Display all available commands.".

Definition start (chat_id : Z) : M unit :=
  logging INFO [Lit "User "; Val (PInt chat_id); Lit " started the bot."];;
  reply_text (PStr intro_text).

Definition help_command (chat_id : Z) : M unit :=
  logging INFO [Lit "User "; Val (PInt chat_id); Lit " requested help."];;
  reply_text (PStr help_text).

Definition menu (chat_id : Z) : M unit :=
  logging INFO [Lit "User "; Val (PInt chat_id); Lit " requested the menu."];;
  reply_text (PStr menu_text).

(** *** [main] *)

(** A command handler, applied to the chat of the update and the words
    after the command. *)
Definition handler : Type := Z -> list string -> M unit.

(** The handlers that [main] adds to the application, in order. *)
Definition main_handlers : list (string * handler) :=
  [("start", fun chat_id _ => start chat_id);
   ("weather", weather);
   ("help", fun chat_id _ => help_command chat_id);
   ("menu", fun chat_id _ => menu chat_id)].

(** The commands that [main] registers with [set_my_commands]. *)
Definition main_commands : list (string * string) :=
  [("start", "Start the bot and get an introduction");
   ("weather", "Get the weather for any city and see a graphical representation");
   ("help", "Display help information");
   ("menu", "Display all available commands")].

End Bot.

(** * Specification side *)

(** ** The provider payload, in the words of the specification *)

(** The provider status code of a payload: its [cod] field. *)
Definition payload_cod (data : pyval) : option pyval :=
  match data with
  | PDict fields => dict_lookup "cod" fields
  | _ => None
  end.

(** The payload reports success: [cod] is there and equals 200. *)
Definition cod_success (data : pyval) : bool :=
  match payload_cod data with
  | Some c => eq_int c 200
  | None => false
  end.

(** The three fields of a well-formed success payload: the description
    string of the first element of the non-empty [weather] list, and
    [temp] and [humidity] of the [main] object.  [None] when one of them
    is missing or malformed. *)
Definition payload_fields (data : pyval) : option (string * pyval * pyval) :=
  match data with
  | PDict fields =>
      match dict_lookup "weather" fields, dict_lookup "main" fields with
      | Some (PList (PDict w0 :: _)), Some (PDict m) =>
          match dict_lookup "description" w0,
                dict_lookup "temp" m, dict_lookup "humidity" m with
          | Some (PStr d), Some t, Some h => Some (d, t, h)
          | _, _, _ => None
          end
      | _, _ => None
      end
  | _ => None
  end.

(** The success value of [fetch]: a record of exactly three keys. *)
Definition weather_result (description : string) (temperature humidity : pyval)
    : pyval :=
  PDict [("description", PStr description); ("temperature", temperature);
         ("humidity", humidity)].

(** The four shapes of what [fetch] returns for a location. *)
Inductive outcome (city : option string) : pyval -> Prop :=
| success d t h : outcome city (weather_result d t h)
| invalid_location : outcome city (PStr (invalid_location_message city))
| network_failure : outcome city (PStr network_failure_message)
| unexpected_failure : outcome city (PStr unexpected_failure_message).

(** The data model of the specification: the temperature is a finite
    number, the humidity an integer percentage. *)
Definition finite_number (v : pyval) : bool :=
  match v with
  | PInt _ => true
  | PFloat (S754_zero _) | PFloat (S754_finite _ _ _) => true
  | _ => false
  end.

Definition percentage (v : pyval) : bool :=
  match v with
  | PInt n => (0 <=? n) && (n <=? 100)
  | _ => false
  end.

(** ** The transport *)

(** The transport delivered response [r] for the query of [city]. *)
Definition delivers (api_key : option string)
    (requests_get : string -> result response)
    (city : option string) (r : response) : Prop :=
  requests_get (weather_url (fmt city) (fmt api_key)) = Ok r.

(** A failure of the transport as [get_weather] sees it: [requests.get]
    raised a [RequestException] (connection refused, timeout, DNS
    failure, ...), or the response carries a 4xx or 5xx status. *)
Definition transport_failure (requests_get : string -> result response)
    (url : string) : Prop :=
  (exists e, requests_get url = Raise e /\ is_RequestException e = true) \/
  (exists r, requests_get url = Ok r /\ 400 <= status_code r < 600).

(** ** Traces *)

(** The world after the events [evs] have been recorded. *)
Definition after (w : world) (evs : list event) : world :=
  World (fs w) (figs w) (events w ++ evs) (outbox w).

(** What [get_weather] records before it has a response. *)
Definition request_events (api_key city : option string) : list event :=
  [EvLog INFO [Lit "Fetching weather for "; Val (of_opt city); Lit "..."];
   EvHttpGet (weather_url (fmt city) (fmt api_key))].

(** The reads of the success path, in order. *)
Definition success_reads : list event :=
  [EvRead (KGet "cod"); EvRead (KItem "weather"); EvRead (KIndex 0);
   EvRead (KItem "description"); EvRead (KItem "main"); EvRead (KItem "temp");
   EvRead (KItem "main"); EvRead (KItem "humidity")].

(** An event that touches the body of the response. *)
Definition is_payload_access (ev : event) : bool :=
  match ev with
  | EvJson | EvRead _ => true
  | _ => false
  end.

(** The location query parameter of a request URL, as it is written in
    the URL (not percent-decoded): the text between ["?q="] and the end
    of the parameter, which is the next ["&"], the ["#"] of a fragment,
    or the end of the URL. *)
Fixpoint strip_prefix (p s : string) : option string :=
  match p, s with
  | EmptyString, _ => Some s
  | String a p', String b s' =>
      if Ascii.eqb a b then strip_prefix p' s' else None
  | String _ _, EmptyString => None
  end.

Fixpoint take_until (stop : ascii -> bool) (s : string) : string :=
  match s with
  | EmptyString => EmptyString
  | String a s' => if stop a then EmptyString else String a (take_until stop s')
  end.

Definition ends_parameter (c : ascii) : bool :=
  Ascii.eqb c "&" || Ascii.eqb c "#".

Definition query_location (url : string) : option string :=
  take_until ends_parameter <$>
    strip_prefix "http://api.openweathermap.org/data/2.5/weather?q=" url.

(** ** Charts *)

(** The figure the renderer builds for a location and two values. *)
Definition chart (city : option string) (t h : pyval) : figure :=
  Figure (Some (8, 6))
    [Bar "Temperature" t "skyblue"; Bar "Humidity" h "lightgreen"]
    ("Weather in " +:+ fmt city) "Values".

(** What pyplot makes of a render of the two values for a location: the
    exception that ends the render, if [plt.bar] or [plt.savefig] raises,
    and the records logged up to there. *)
Definition render_answer (lib : libraries) (city : option string)
    (t h : pyval) : result unit * list log_record :=
  match pyplot_bar lib [t; h] with
  | Raise e => (Raise e, [])
  | Ok records =>
      match pyplot_savefig lib (chart city t h) with
      | Raise e => (Raise e, records)
      | Ok records' => (Ok tt, (records ++ records')%list)
      end
  end.

(** The figure that stays open when a render raises: still empty when
    [plt.bar] raised, the chart when [plt.savefig] did. *)
Definition leaked_figure (lib : libraries) (city : option string)
    (t h : pyval) : figure :=
  match pyplot_bar lib [t; h] with
  | Raise _ => new_figure (Some (8, 6))
  | Ok _ => chart city t h
  end.

(** ** Concrete inputs *)

Definition empty_world : world := World ∅ [] [] [].

(** A transport that answers every request with the response [r]. *)
Definition always (r : response) : string -> result response := fun _ => Ok r.

(** A transport that fails every request with the exception [e]. *)
Definition failing (e : exn) : string -> result response := fun _ => Raise e.

(** 18.5 and -3.5 as doubles: 37 * 2^-1 and -7 * 2^-1. *)
Definition temp_18_5 : pyval := PFloat (S754_finite false 37 (-1)).
Definition temp_minus_3_5 : pyval := PFloat (S754_finite true 7 (-1)).

(** [{cod: 200, weather: [{description: "clear sky"}],
      main: {temp: 18.5, humidity: 60}}] *)
Definition paris_payload : pyval :=
  PDict [("cod", PInt 200);
         ("weather", PList [PDict [("description", PStr "clear sky")]]);
         ("main", PDict [("temp", temp_18_5); ("humidity", PInt 60)])].

(** [{cod: 404, message: "city not found"}] *)
Definition not_found_payload : pyval :=
  PDict [("cod", PInt 404); ("message", PStr "city not found")].

(** A success payload without [main.temp]. *)
Definition no_temp_payload : pyval :=
  PDict [("cod", PInt 200);
         ("weather", PList [PDict [("description", PStr "clear sky")]]);
         ("main", PDict [("humidity", PInt 60)])].

(** The Paris payload with the status code as the string ["200"]. *)
Definition string_cod_payload : pyval :=
  PDict [("cod", PStr "200");
         ("weather", PList [PDict [("description", PStr "clear sky")]]);
         ("main", PDict [("temp", temp_18_5); ("humidity", PInt 60)])].

(** A success payload whose temperature is JSON [null]. *)
Definition null_temp_payload : pyval :=
  PDict [("cod", PInt 200);
         ("weather", PList [PDict [("description", PStr "clear sky")]]);
         ("main", PDict [("temp", PNone); ("humidity", PInt 60)])].

(** ** The decision table of [fetch] *)

(** The message of the [except] clause that catches [e]. *)
Definition error_message (e : exn) : string :=
  if is_RequestException e then network_failure_message
  else unexpected_failure_message.

(** What a decoded payload is turned into. *)
Definition payload_table (lib : libraries) (city : option string)
    (data : pyval) : pyval :=
  match data with
  | PDict _ =>
      if cod_success data then
        match payload_fields data with
        | Some (d, t, h) => weather_result (str_capitalize lib d) t h
        | None => PStr unexpected_failure_message
        end
      else PStr (invalid_location_message city)
  | _ => PStr unexpected_failure_message
  end.

(** What the answer of the transport is turned into. *)
Definition fetch_table (lib : libraries) (city : option string)
    (answer : result response) : pyval :=
  match answer with
  | Raise e => PStr (error_message e)
  | Ok r =>
      if (400 <=? status_code r) && (status_code r <? 600)
      then PStr network_failure_message
      else match json r with
           | Raise e => PStr (error_message e)
           | Ok data => payload_table lib city data
           end
  end.

(** The severity of the log record that tells an outcome. *)
Definition outcome_level (city : option string) (v : pyval) : level :=
  match v with
  | PStr msg =>
      if String.eqb msg (invalid_location_message city) then WARNING else ERROR
  | _ => INFO
  end.

(** ** Texts *)

Fixpoint starts_with (p s : string) : bool :=
  match p, s with
  | EmptyString, _ => true
  | String a p', String b s' => Ascii.eqb a b && starts_with p' s'
  | String _ _, EmptyString => false
  end.

(** [p in s] of Python: [p] occurs somewhere in [s]. *)
Fixpoint contains (p s : string) : bool :=
  starts_with p s ||
  match s with
  | EmptyString => false
  | String _ s' => contains p s'
  end.

(** A payload like that of Paris, with another description. *)
Definition rainy_payload : pyval :=
  PDict [("cod", PInt 200);
         ("weather", PList [PDict [("description", PStr "light rain")]]);
         ("main", PDict [("temp", temp_18_5); ("humidity", PInt 60)])].

(** A payload whose description has upper case letters after the first. *)
Definition shouting_payload : pyval :=
  PDict [("cod", PInt 200);
         ("weather", PList [PDict [("description", PStr "few CLOUDS")]]);
         ("main", PDict [("temp", temp_18_5); ("humidity", PInt 60)])].

(** A success payload whose temperature is the string ["warm"]. *)
Definition warm_temp_payload : pyval :=
  PDict [("cod", PInt 200);
         ("weather", PList [PDict [("description", PStr "clear sky")]]);
         ("main", PDict [("temp", PStr "warm"); ("humidity", PInt 60)])].

(** ** A sample of the libraries *)

(** An int that fits 64 bits. *)
Definition int64 (n : Z) : bool := (- 2 ^ 63 <=? n) && (n <? 2 ^ 63).

Definition is_none (v : pyval) : bool :=
  match v with PNone => true | _ => false end.

Definition beyond_int64 (v : pyval) : bool :=
  match v with PInt n => negb (int64 n) | _ => false end.

(** A [plt.bar] for the examples.  It answers as pyplot does on the
    heights the examples use: [TypeError] for a [None] height,
    [OverflowError] for an int height beyond 64 bits, and no record for
    two small numbers.  (Its answer on other heights is of no use.)  The
    [plt.savefig] of the examples draws and writes every figure. *)
Definition sample_bar (heights : list pyval) : result (list log_record) :=
  if existsb is_none heights then Raise (Exn TypeError heights)
  else if existsb beyond_int64 heights then Raise (Exn OverflowError heights)
  else Ok [].

(** The libraries of the examples; their texts are ASCII, so that the
    mapping outside ASCII is never asked for. *)
Definition sample : libraries :=
  Libraries (fun s => s) sample_bar (fun _ => Ok []).

(** 2^63 as a temperature. *)
Definition huge_temp : pyval := PInt (2 ^ 63).

(** * Proofs *)

(** ** Running a computation *)

Ltac run :=
  cbv [mbind M_bind mret M_ret tell tell_all lift raise logging http_get
       response_json py_get py_item py_index try_except reply_text send_photo
       open_rb plt_figure plt_bar add_bars plt_title plt_ylabel plt_savefig plt_close].

Lemma emit_start (e : event) (w : world) : emit e w = after w [e].
Proof. reflexivity. Qed.

Lemma after_after (w : world) (evs evs' : list event) :
  after (after w evs) evs' = after w (evs ++ evs').
Proof. unfold after. cbn. by rewrite <- (assoc_L (++)). Qed.

Ltac trace := rewrite ?emit_start, ?after_after; cbn [app].

(** Reduces the accesses, using the lookups known from the context. *)
Ltac lookups :=
  repeat (cbn [get_method getitem index capitalize_method default negb
               lookup list_lookup String.get];
          match goal with
          | H : dict_lookup ?k ?f = _ |- context [dict_lookup ?k ?f] => rewrite H
          end);
  cbn [get_method getitem index capitalize_method default negb
       lookup list_lookup String.get].

(** Closes a goal that asks for the exception of a run that has raised. *)
Ltac raised := by (eexists _, _; split; [trace; reflexivity | reflexivity]).

Ltac raised_reads :=
  by (eexists _, _; split; [trace; reflexivity | split; reflexivity]).

Section Proofs.

Context (lib : libraries).

(** ** The payload *)

Lemma cod_of_get (fields : list (string * pyval)) :
  eq_int (default PNone (dict_lookup "cod" fields)) 200 = cod_success (PDict fields).
Proof. unfold cod_success, payload_cod. by destruct (dict_lookup "cod" fields). Qed.

Lemma payload_success city data d t h w :
  cod_success data = true ->
  payload_fields data = Some (d, t, h) ->
  get_weather_payload lib city data w =
    (Ok (weather_result (str_capitalize lib d) t h),
     after w (success_reads ++
       [EvLog INFO [Lit "Weather data for "; Val (of_opt city); Lit ": ";
                    Val (weather_result (str_capitalize lib d) t h)]])).
Proof.
  intros Hc Hf. destruct data as [| | | | |l|fields]; try discriminate.
  unfold get_weather_payload. run. cbn [get_method default].
  rewrite cod_of_get, Hc. cbn [negb].
  unfold payload_fields in Hf.
  destruct (dict_lookup "weather" fields)
    as [[| | | | |[|[| | | | | |w0] ws]|]|] eqn:Ew; try discriminate.
  destruct (dict_lookup "main" fields) as [[| | | | | |m]|] eqn:Em;
    try discriminate.
  destruct (dict_lookup "description" w0) as [[| | | |s| |]|] eqn:Ed;
    try discriminate.
  destruct (dict_lookup "temp" m) as [t'|] eqn:Et; try discriminate.
  destruct (dict_lookup "humidity" m) as [h'|] eqn:Eh; try discriminate.
  injection Hf as -> -> ->. lookups. trace. reflexivity.
Qed.

Lemma payload_invalid city fields w :
  cod_success (PDict fields) = false ->
  get_weather_payload lib city (PDict fields) w =
    (Ok (PStr (invalid_location_message city)),
     after w [EvRead (KGet "cod"); EvRead (KGet "message");
              EvLog WARNING
                [Lit "Weather fetch failed for "; Val (of_opt city);
                 Lit ". Error: ";
                 Val (default PNone (dict_lookup "message" fields))]]).
Proof.
  intros Hc. unfold get_weather_payload. run. cbn [get_method].
  rewrite cod_of_get, Hc. cbn [negb]. trace. reflexivity.
Qed.

(** A malformed payload raises after reads only: nothing is logged before
    the [except] clause. *)
Lemma payload_malformed_reads city data w :
  cod_success data = true ->
  payload_fields data = None ->
  exists e evs,
    get_weather_payload lib city data w = (Raise e, after w evs) /\
    is_RequestException e = false /\
    forallb is_payload_access evs = true.
Proof.
  intros Hc Hf. destruct data as [| | | | |l|fields]; try discriminate.
  unfold get_weather_payload. run. cbn [get_method default].
  rewrite cod_of_get, Hc. cbn [negb].
  unfold payload_fields in Hf.
  destruct (dict_lookup "weather" fields) as [wv|] eqn:Ew; lookups;
    [|raised_reads].
  destruct wv as [| | | |s|[|w0 ws]|]; lookups; try raised_reads.
  - destruct s; lookups; raised_reads.
  - destruct w0 as [| | | | | |wd]; lookups; try raised_reads.
    destruct (dict_lookup "description" wd) as [dv|] eqn:Ed; lookups;
      [|raised_reads].
    destruct dv; lookups; try raised_reads.
    destruct (dict_lookup "main" fields) as [mv|] eqn:Em; lookups;
      [|raised_reads].
    destruct mv as [| | | | | |m]; lookups; try raised_reads.
    destruct (dict_lookup "temp" m) eqn:Et; lookups; [|raised_reads].
    destruct (dict_lookup "humidity" m) eqn:Eh; lookups; [|raised_reads].
    discriminate.
Qed.

Lemma payload_malformed city data w :
  cod_success data = true ->
  payload_fields data = None ->
  exists e evs,
    get_weather_payload lib city data w = (Raise e, after w evs) /\
    is_RequestException e = false.
Proof.
  intros Hc Hf.
  destruct (payload_malformed_reads city data w Hc Hf) as (e & evs & H & He & _).
  eauto.
Qed.

Lemma payload_not_object city data w :
  (forall fields, data <> PDict fields) ->
  get_weather_payload lib city data w =
    (Raise (Exn AttributeError [PStr "get"]), after w [EvRead (KGet "cod")]).
Proof.
  intros Hn. unfold get_weather_payload. run.
  destruct data; try reflexivity. by destruct (Hn d).
Qed.

(** ** The request *)

Lemma except_request e w :
  is_RequestException e = true ->
  get_weather_except e w =
    (Ok (PStr network_failure_message),
     after w [EvLog ERROR [Lit "Request error: "; Err e]]).
Proof. intros He. unfold get_weather_except. by rewrite He. Qed.

Lemma except_other e w :
  is_RequestException e = false ->
  get_weather_except e w =
    (Ok (PStr unexpected_failure_message),
     after w [EvLog ERROR [Lit "Unexpected error: "; Err e]]).
Proof. intros He. unfold get_weather_except. by rewrite He. Qed.

Lemma get_weather_raises key rg city e w :
  rg (weather_url (fmt city) (fmt key)) = Raise e ->
  get_weather lib key rg city w =
    get_weather_except e (after w (request_events key city)).
Proof.
  intros Hg. unfold get_weather, get_weather_try. run. rewrite Hg.
  trace. reflexivity.
Qed.

Lemma status_check (s : Z) :
  ((400 <=? s) && (s <? 600) = true <-> 400 <= s < 600).
Proof. rewrite andb_true_iff, Z.leb_le, Z.ltb_lt. tauto. Qed.

Lemma get_weather_bad_status key rg city r w :
  delivers key rg city r ->
  400 <= status_code r < 600 ->
  get_weather lib key rg city w =
    get_weather_except (Exn ReqHTTPError [PInt (status_code r)])
      (after w (request_events key city)).
Proof.
  intros Hg Hs. unfold get_weather, get_weather_try. run. rewrite Hg.
  unfold raise_for_status. apply status_check in Hs. rewrite Hs. run.
  trace. reflexivity.
Qed.

Lemma get_weather_decoded key rg city r data w :
  delivers key rg city r ->
  ~ 400 <= status_code r < 600 ->
  json r = Ok data ->
  get_weather lib key rg city w =
    try_except (get_weather_payload lib city data) get_weather_except
      (after w (request_events key city ++ [EvJson])).
Proof.
  intros Hg Hs Hj. unfold get_weather, get_weather_try. run. rewrite Hg.
  unfold raise_for_status. rewrite <- status_check in Hs.
  apply not_true_is_false in Hs. rewrite Hs. run. rewrite Hj.
  trace. reflexivity.
Qed.

Lemma get_weather_undecoded key rg city r e w :
  delivers key rg city r ->
  ~ 400 <= status_code r < 600 ->
  json r = Raise e ->
  get_weather lib key rg city w =
    get_weather_except e (after w (request_events key city ++ [EvJson])).
Proof.
  intros Hg Hs Hj. unfold get_weather, get_weather_try. run. rewrite Hg.
  unfold raise_for_status. rewrite <- status_check in Hs.
  apply not_true_is_false in Hs. rewrite Hs. run. rewrite Hj.
  trace. reflexivity.
Qed.

Lemma not_4xx_5xx (s : Z) : 200 <= s < 300 -> ~ 400 <= s < 600.
Proof. lia. Qed.

(** Every run of [get_weather] returns, and returns one of four shapes. *)
Lemma payload_cases city data w :
  exists evs,
    (exists v, get_weather_payload lib city data w = (Ok v, after w evs) /\
               (v = PStr (invalid_location_message city) \/
                exists d t h, v = weather_result d t h)) \/
    (exists e, get_weather_payload lib city data w = (Raise e, after w evs) /\
               is_RequestException e = false).
Proof.
  destruct data as [| | | | | |fields];
    try (rewrite payload_not_object by done; eexists; right; eauto).
  destruct (cod_success (PDict fields)) eqn:Hc.
  - destruct (payload_fields (PDict fields)) as [[[d t] h]|] eqn:Hf.
    + rewrite (payload_success _ _ _ _ _ _ Hc Hf). eexists. left. eauto 8.
    + destruct (payload_malformed city _ w Hc Hf) as (e & evs & -> & He).
      eexists. right. eauto.
  - rewrite (payload_invalid _ _ _ Hc). eexists. left. eauto.
Qed.

Lemma except_cases city e w :
  exists v ev, get_weather_except e w = (Ok v, after w [ev]) /\ outcome city v.
Proof.
  destruct (is_RequestException e) eqn:He.
  - rewrite (except_request _ _ He). eauto using outcome.
  - rewrite (except_other _ _ He). eauto using outcome.
Qed.

Lemma get_weather_total key rg city w :
  exists v evs,
    get_weather lib key rg city w =
      (Ok v, after w (request_events key city ++ evs)) /\
    outcome city v.
Proof.
  destruct (rg (weather_url (fmt city) (fmt key))) as [r|e] eqn:Hg.
  - destruct (decide (400 <= status_code r < 600)) as [Hs|Hs].
    + rewrite (get_weather_bad_status _ _ _ _ _ Hg Hs).
      edestruct except_cases as (v & ev & -> & Hv).
      rewrite after_after. eauto.
    + destruct (json r) as [data|e] eqn:Hj.
      * rewrite (get_weather_decoded _ _ _ _ _ _ Hg Hs Hj). unfold try_except.
        destruct (payload_cases city data
                    (after w (request_events key city ++ [EvJson])))
          as (evs & [(v & -> & Hv) | (e & -> & He)]).
        -- rewrite after_after, <- (assoc_L (++)). do 2 eexists.
           split; [reflexivity|].
           destruct Hv as [-> | (d & t & h & ->)]; constructor.
        -- edestruct except_cases as (v & ev & -> & Hv).
           rewrite !after_after, <- !(assoc_L (++)). eauto.
      * rewrite (get_weather_undecoded _ _ _ _ _ _ Hg Hs Hj).
        edestruct except_cases as (v & ev & -> & Hv).
        rewrite after_after, <- (assoc_L (++)). eauto.
  - rewrite (get_weather_raises _ _ _ _ _ Hg).
    edestruct except_cases as (v & ev & -> & Hv).
    rewrite after_after. eauto.
Qed.

(** ** [get_weather] against its decision table *)

Lemma network_not_invalid city :
  String.eqb network_failure_message (invalid_location_message city) = false.
Proof. reflexivity. Qed.

Lemma unexpected_not_invalid city :
  String.eqb unexpected_failure_message (invalid_location_message city) = false.
Proof. reflexivity. Qed.

Lemma error_level city e :
  outcome_level city (PStr (error_message e)) = ERROR.
Proof. unfold error_message. by destruct (is_RequestException e). Qed.

Lemma except_shape city e w :
  exists msg,
    get_weather_except e w =
      (Ok (PStr (error_message e)),
       after w [EvLog (outcome_level city (PStr (error_message e))) msg]).
Proof.
  rewrite error_level. unfold error_message.
  destruct (is_RequestException e) eqn:He.
  - rewrite (except_request _ _ He). eauto.
  - rewrite (except_other _ _ He). eauto.
Qed.

(** The run on a decoded payload, [except] clauses included. *)
Lemma payload_shape city data w :
  exists middle msg,
    try_except (get_weather_payload lib city data) get_weather_except w =
      (Ok (payload_table lib city data),
       after w (middle ++
                [EvLog (outcome_level city (payload_table lib city data)) msg])) /\
    forallb is_payload_access middle = true.
Proof.
  unfold try_except.
  destruct data as [| | | | | |fields];
    try (rewrite payload_not_object by done;
         rewrite except_other by reflexivity; trace;
         by exists [EvRead (KGet "cod")]; eexists).
  unfold payload_table.
  destruct (cod_success (PDict fields)) eqn:Hc.
  - destruct (payload_fields (PDict fields)) as [[[d t] h]|] eqn:Hf.
    + rewrite (payload_success _ _ _ _ _ _ Hc Hf). by exists success_reads; eexists.
    + destruct (payload_malformed_reads city _ w Hc Hf)
        as (e & evs & -> & He & Hr).
      rewrite (except_other _ _ He), after_after. by exists evs; eexists.
  - rewrite (payload_invalid _ _ _ Hc).
    cbn [outcome_level]. rewrite String.eqb_refl.
    by exists [EvRead (KGet "cod"); EvRead (KGet "message")]; eexists.
Qed.

Lemma get_weather_shape key rg city w :
  let v := fetch_table lib city (rg (weather_url (fmt city) (fmt key))) in
  exists middle msg,
    get_weather lib key rg city w =
      (Ok v, after w (request_events key city ++ middle ++
                      [EvLog (outcome_level city v) msg])) /\
    forallb is_payload_access middle = true.
Proof.
  cbn zeta. unfold fetch_table.
  destruct (rg (weather_url (fmt city) (fmt key))) as [r|e] eqn:Hg.
  - destruct ((400 <=? status_code r) && (status_code r <? 600)) eqn:Hs.
    + apply status_check in Hs.
      rewrite (get_weather_bad_status _ _ _ _ _ Hg Hs).
      rewrite except_request by reflexivity. rewrite after_after.
      by exists []; eexists.
    + assert (Hs' : ~ 400 <= status_code r < 600).
      { rewrite <- status_check. by rewrite Hs. }
      destruct (json r) as [data|e] eqn:Hj.
      * rewrite (get_weather_decoded _ _ _ _ _ _ Hg Hs' Hj).
        destruct (payload_shape city data
                    (after w (request_events key city ++ [EvJson])))
          as (middle & msg & -> & Hm).
        rewrite after_after, <- (assoc_L (++)).
        by exists (EvJson :: middle); eexists.
      * rewrite (get_weather_undecoded _ _ _ _ _ _ Hg Hs' Hj).
        destruct (except_shape city e
                    (after w (request_events key city ++ [EvJson])))
          as (msg & ->).
        rewrite after_after, <- (assoc_L (++)).
        by exists [EvJson]; eexists.
  - rewrite (get_weather_raises _ _ _ _ _ Hg).
    destruct (except_shape city e (after w (request_events key city)))
      as (msg & ->).
    rewrite after_after. by exists []; eexists.
Qed.

(** Refutes [H], which equates an outcome that is not the
    invalid-location message with that message. *)
Ltac not_invalid H city :=
  exfalso; apply (f_equal (outcome_level city)) in H;
  rewrite ?error_level in H; cbn [outcome_level] in H;
  rewrite ?network_not_invalid, ?unexpected_not_invalid, ?String.eqb_refl in H;
  discriminate H.

Lemma returned_is_table key rg city w v :
  (get_weather lib key rg city w).1 = Ok v ->
  v = fetch_table lib city (rg (weather_url (fmt city) (fmt key))).
Proof.
  destruct (get_weather_shape key rg city w) as (middle & msg & -> & _).
  cbn. congruence.
Qed.

Lemma table_outcome city answer : outcome city (fetch_table lib city answer).
Proof.
  unfold fetch_table, payload_table, error_message.
  repeat case_match; constructor.
Qed.

Lemma get_weather_table key rg city w :
  exists evs,
    get_weather lib key rg city w =
      (Ok (fetch_table lib city (rg (weather_url (fmt city) (fmt key)))),
       after w evs).
Proof.
  destruct (get_weather_shape key rg city w) as (middle & msg & -> & _).
  eauto.
Qed.

(** ** The client: [get_weather] *)

(** C1.  A well-formed success payload on a 2xx response: [get_weather]
    returns the record whose description is [weather[0].description]
    capitalized and whose temperature and humidity are [main.temp] and
    [main.humidity], unchanged. *)
Theorem fetch_success key rg city r data d t h w :
  delivers key rg city r ->
  200 <= status_code r < 300 ->
  json r = Ok data ->
  cod_success data = true ->
  payload_fields data = Some (d, t, h) ->
  (get_weather lib key rg city w).1 =
    Ok (weather_result (str_capitalize lib d) t h).
Proof.
  intros Hg Hs Hj Hc Hf.
  rewrite (get_weather_decoded _ _ _ _ _ _ Hg (not_4xx_5xx _ Hs) Hj).
  unfold try_except. by rewrite (payload_success _ _ _ _ _ _ Hc Hf).
Qed.

(** C4, as amended.  A success payload ([cod] 200 on a 2xx response) never
    makes [get_weather] raise.  When the description string, [main.temp]
    or [main.humidity] cannot be taken out of it (a field is absent,
    [weather] is not a non-empty list of objects, the description is not
    a string, [main] is not an object), the unexpected-failure message is
    returned.  When they can, the success record is returned with
    [main.temp] and [main.humidity] as they are: their values are not
    looked at, so a null or a string there is not detected. *)
Theorem fetch_malformed key rg city r data w :
  delivers key rg city r ->
  200 <= status_code r < 300 ->
  json r = Ok data ->
  cod_success data = true ->
  exists w',
    get_weather lib key rg city w =
      (Ok match payload_fields data with
          | None => PStr unexpected_failure_message
          | Some (d, t, h) => weather_result (str_capitalize lib d) t h
          end, w').
Proof.
  intros Hg Hs Hj Hc.
  rewrite (get_weather_decoded _ _ _ _ _ _ Hg (not_4xx_5xx _ Hs) Hj).
  unfold try_except.
  destruct (payload_fields data) as [[[d t] h]|] eqn:Hf.
  - rewrite (payload_success _ _ _ _ _ _ Hc Hf). eauto.
  - destruct (payload_malformed city data
                (after w (request_events key city ++ [EvJson])) Hc Hf)
      as (e & evs & Hrun & He).
    rewrite Hrun, (except_other _ _ He). eauto.
Qed.

(** C10.  The status check is [cod != 200] on whatever the payload object
    holds under [cod]: when the field is absent, or holds a value that is
    not equal to the int 200 (the string ["200"] is such a value), a 2xx
    response gives the invalid-location message, whatever else the payload
    contains. *)
Theorem fetch_cod_strict key rg city r fields w :
  delivers key rg city r ->
  200 <= status_code r < 300 ->
  json r = Ok (PDict fields) ->
  (dict_lookup "cod" fields = None \/
   exists c, dict_lookup "cod" fields = Some c /\ eq_int c 200 = false) ->
  (get_weather lib key rg city w).1 = Ok (PStr (invalid_location_message city)).
Proof.
  intros Hg Hs Hj Hcod.
  assert (Hc : cod_success (PDict fields) = false).
  { unfold cod_success, payload_cod.
    destruct Hcod as [-> | (c & -> & Hc)]; done. }
  rewrite (get_weather_decoded _ _ _ _ _ _ Hg (not_4xx_5xx _ Hs) Hj).
  unfold try_except. by rewrite (payload_invalid _ _ _ Hc).
Qed.

(** A payload that is not a JSON object has no fields at all: [data.get]
    is missing, and the outcome is the unexpected-failure message. *)
Remark fetch_not_an_object key rg city r data w :
  delivers key rg city r ->
  200 <= status_code r < 300 ->
  json r = Ok data ->
  (forall fields, data <> PDict fields) ->
  (get_weather lib key rg city w).1 = Ok (PStr unexpected_failure_message).
Proof.
  intros Hg Hs Hj Hn.
  rewrite (get_weather_decoded _ _ _ _ _ _ Hg (not_4xx_5xx _ Hs) Hj).
  unfold try_except. rewrite (payload_not_object _ _ _ Hn).
  by rewrite except_other.
Qed.

(** C3, as amended.  When the transport fails (a [RequestException] of
    [requests.get], or a 4xx or 5xx status), [get_weather] returns the
    network-failure message, and between the request and the error log
    record it neither decodes nor reads the payload.  A response with any
    other status, 2xx or not, is decoded right after the request, and
    what is returned is read off its body: the payload table for a
    decoded payload, the message of the decoder's exception otherwise. *)
Theorem fetch_transport_failure key rg city w :
  (transport_failure rg (weather_url (fmt city) (fmt key)) ->
   exists e,
     get_weather lib key rg city w =
       (Ok (PStr network_failure_message),
        after w (request_events key city ++
                 [EvLog ERROR [Lit "Request error: "; Err e]])) /\
     forallb (fun ev => negb (is_payload_access ev))
       (request_events key city ++
        [EvLog ERROR [Lit "Request error: "; Err e]]) = true) /\
  (forall r,
     delivers key rg city r ->
     ~ 400 <= status_code r < 600 ->
     exists evs,
       get_weather lib key rg city w =
         (Ok match json r with
             | Ok data => payload_table lib city data
             | Raise e => PStr (error_message e)
             end,
          after w (request_events key city ++ EvJson :: evs))).
Proof.
  split.
  - intros [(e & Hg & He) | (r & Hg & Hs)].
    + exists e. rewrite (get_weather_raises _ _ _ _ _ Hg).
      rewrite (except_request _ _ He). trace. done.
    + exists (Exn ReqHTTPError [PInt (status_code r)]).
      rewrite (get_weather_bad_status _ _ _ _ _ Hg Hs).
      rewrite except_request by reflexivity. trace. done.
  - intros r Hg Hs. destruct (json r) as [data|e] eqn:Hj.
    + rewrite (get_weather_decoded _ _ _ _ _ _ Hg Hs Hj).
      destruct (payload_shape city data
                  (after w (request_events key city ++ [EvJson])))
        as (middle & msg & -> & _).
      rewrite after_after, <- (assoc_L (++)). eauto.
    + rewrite (get_weather_undecoded _ _ _ _ _ _ Hg Hs Hj).
      destruct (except_shape city e
                  (after w (request_events key city ++ [EvJson])))
        as (msg & ->).
      rewrite after_after, <- (assoc_L (++)). eauto.
Qed.

(** ** The renderer: [create_weather_graph] *)

Lemma render_run city d t h w :
  create_weather_graph lib city (weather_result d t h) w =
    match render_answer lib city t h with
    | (Ok _, records) =>
        (Ok tt,
         set_fs (fun files => <["weather.png" := Image (chart city t h)]> files)
           (after w (map record_event records)))
    | (Raise e, records) =>
        (Raise e,
         set_figs (fun gs => leaked_figure lib city t h :: gs)
           (after w (map record_event records)))
    end.
Proof.
  unfold create_weather_graph, render_answer, leaked_figure, chart. run.
  cbn [getitem weather_result dict_lookup String.eqb Ascii.eqb Bool.eqb].
  destruct w as [files gs evs out].
  destruct (pyplot_bar lib [t; h]) as [records|e]; cbn.
  - match goal with
    | |- context [pyplot_savefig lib ?g] =>
        destruct (pyplot_savefig lib g) as [records'|e]
    end; cbn.
    + unfold after, set_fs. cbn. by rewrite map_app, (assoc_L (++)).
    + reflexivity.
  - unfold after, set_figs. cbn. by rewrite app_nil_r.
Qed.

Lemma render_accepted city d t h records w :
  render_answer lib city t h = (Ok tt, records) ->
  create_weather_graph lib city (weather_result d t h) w =
    (Ok tt,
     set_fs (fun files => <["weather.png" := Image (chart city t h)]> files)
       (after w (map record_event records))).
Proof. intros Hr. by rewrite render_run, Hr. Qed.

Lemma render_rejected city d t h e records w :
  render_answer lib city t h = (Raise e, records) ->
  create_weather_graph lib city (weather_result d t h) w =
    (Raise e,
     set_figs (fun gs => leaked_figure lib city t h :: gs)
       (after w (map record_event records))).
Proof. intros Hr. by rewrite render_run, Hr. Qed.


(** C8, as amended.  The renderer writes [weather.png] and no other path,
    and leaves the file in place.  After a call that returns, the file
    holds the chart of that call.  After a second call that returns too,
    it holds the second chart; a second call in which [plt.bar] or
    [plt.savefig] raises writes nothing, and the file still holds the
    first chart.  Every other path holds what it held before. *)
Theorem render_last_write_wins city1 d1 t1 h1 city2 d2 t2 h2 records1 w :
  render_answer lib city1 t1 h1 = (Ok tt, records1) ->
  exists w1 w2,
    create_weather_graph lib city1 (weather_result d1 t1 h1) w = (Ok tt, w1) /\
    fs w1 !! "weather.png" = Some (Image (chart city1 t1 h1)) /\
    match render_answer lib city2 t2 h2 with
    | (Ok _, _) =>
        create_weather_graph lib city2 (weather_result d2 t2 h2) w1 = (Ok tt, w2) /\
        fs w2 !! "weather.png" = Some (Image (chart city2 t2 h2)) /\
        fs w2 = <["weather.png" := Image (chart city2 t2 h2)]> (fs w)
    | (Raise e, _) =>
        create_weather_graph lib city2 (weather_result d2 t2 h2) w1 = (Raise e, w2) /\
        fs w2 !! "weather.png" = Some (Image (chart city1 t1 h1)) /\
        fs w2 = <["weather.png" := Image (chart city1 t1 h1)]> (fs w)
    end /\
    delete "weather.png" (fs w2) = delete "weather.png" (fs w).
Proof.
  intros H1. eexists.
  destruct (render_answer lib city2 t2 h2) as [[[]|e] records2] eqn:H2;
    eexists.
  - split; [by apply render_accepted|].
    split; [apply lookup_insert_eq|]. split.
    + split; [by eapply render_accepted|].
      split; [apply lookup_insert_eq|]. apply insert_insert_eq.
    + cbn [set_fs fs after]. by rewrite !delete_insert_eq.
  - split; [by apply render_accepted|].
    split; [apply lookup_insert_eq|]. split.
    + split; [by eapply render_rejected|].
      split; [apply lookup_insert_eq|]. reflexivity.
    + cbn [set_fs set_figs fs after]. by rewrite delete_insert_eq.
Qed.

(** ** The pipeline: [weather] *)

Lemma error_outcome_str (msg : string) : is_error_outcome (PStr msg) = true.
Proof. unfold is_error_outcome. apply orb_true_r. Qed.

Lemma error_outcome_result d t h :
  is_error_outcome (weather_result d t h) = false.
Proof. reflexivity. Qed.

Lemma weather_text key default rg chat args w msg w1 :
  get_weather lib key rg (location default args) w = (Ok (PStr msg), w1) ->
  weather lib key default rg chat args w = (Ok tt, send (SentText (PStr msg)) w1).
Proof.
  intros Hg. unfold weather. run. rewrite Hg, error_outcome_str. reflexivity.
Qed.

Lemma weather_photo key default rg chat args w d t h records w1 :
  get_weather lib key rg (location default args) w = (Ok (weather_result d t h), w1) ->
  render_answer lib (location default args) t h = (Ok tt, records) ->
  weather lib key default rg chat args w =
    (Ok tt,
     send (SentPhoto chat (Image (chart (location default args) t h)))
       (set_fs (fun files =>
          <["weather.png" := Image (chart (location default args) t h)]> files)
          (after w1 (map record_event records)))).
Proof.
  intros Hg Hb. unfold weather. run. rewrite Hg, error_outcome_result.
  rewrite (render_accepted _ d t h records w1 Hb).
  cbn [set_fs fs]. by rewrite lookup_insert_eq.
Qed.

Lemma weather_render_raises key default rg chat args w d t h e records w1 :
  get_weather lib key rg (location default args) w = (Ok (weather_result d t h), w1) ->
  render_answer lib (location default args) t h = (Raise e, records) ->
  weather lib key default rg chat args w =
    (Raise e,
     set_figs (fun gs => leaked_figure lib (location default args) t h :: gs)
       (after w1 (map record_event records))).
Proof.
  intros Hg Hb. unfold weather. run. rewrite Hg, error_outcome_result.
  by rewrite (render_rejected _ d t h e records w1 Hb).
Qed.

(** The events of a run of the handler start as those of its
    [get_weather]. *)
Lemma weather_events key default rg chat args w :
  exists rest : list event,
    events (weather lib key default rg chat args w).2 =
      (events w ++ request_events key (location default args) ++ rest)%list.
Proof.
  destruct (get_weather_total key rg (location default args) w)
    as (v & evs & Hg & Hv).
  destruct Hv as [d t h | | |].
  - destruct (render_answer lib (location default args) t h)
      as [[[]|e] records] eqn:Hb.
    + rewrite (weather_photo _ _ _ _ _ _ _ _ _ _ _ Hg Hb).
      exists (evs ++ map record_event records)%list.
      cbn. by rewrite <- !(assoc_L (++)).
    + rewrite (weather_render_raises _ _ _ _ _ _ _ _ _ _ _ _ Hg Hb).
      exists (evs ++ map record_event records)%list.
      cbn. by rewrite <- !(assoc_L (++)).
  - rewrite (weather_text _ _ _ _ _ _ _ _ Hg). by exists evs.
  - rewrite (weather_text _ _ _ _ _ _ _ _ Hg). by exists evs.
  - rewrite (weather_text _ _ _ _ _ _ _ _ Hg). by exists evs.
Qed.

(** C2.  On a 2xx response whose payload object reports a status other
    than 200, [get_weather] returns the invalid-location message, which
    contains the location that was asked for.  In particular
    [/weather Nowhereistan], answered with
    [{cod: 404, message: "city not found"}], is replied to with the text
    "Unable to fetch weather for Nowhereistan. Please check the city name
    and try again." and with nothing else. *)
Theorem fetch_invalid_location :
  (forall key rg city r fields w,
     delivers key rg city r ->
     200 <= status_code r < 300 ->
     json r = Ok (PDict fields) ->
     cod_success (PDict fields) = false ->
     (get_weather lib key rg city w).1 = Ok (PStr (invalid_location_message city)) /\
     exists pre post,
       invalid_location_message city = pre +:+ fmt city +:+ post) /\
  (forall key default rg chat r w,
     delivers key rg (Some "Nowhereistan") r ->
     200 <= status_code r < 300 ->
     json r = Ok not_found_payload ->
     exists w',
       weather lib key default rg chat ["Nowhereistan"] w = (Ok tt, w') /\
       outbox w' =
         (outbox w ++
          [SentText (PStr "Unable to fetch weather for Nowhereistan. Please check the city name and try again.")])%list /\
       fs w' = fs w).
Proof.
  split.
  - intros key rg city r fields w Hg Hs Hj Hc. split.
    + rewrite (get_weather_decoded _ _ _ _ _ _ Hg (not_4xx_5xx _ Hs) Hj).
      unfold try_except. by rewrite (payload_invalid _ _ _ Hc).
    + by exists "Unable to fetch weather for ",
                ". Please check the city name and try again.".
  - intros key default rg chat r w Hg Hs Hj.
    eexists. split.
    + apply weather_text. cbn [location].
      rewrite (get_weather_decoded _ _ _ _ _ _ Hg (not_4xx_5xx _ Hs) Hj).
      unfold try_except, not_found_payload.
      rewrite payload_invalid by reflexivity. reflexivity.
    + done.
Qed.

(** C5, as amended.  The location of a command is its words joined with
    single spaces, or the default location when there are no words; with
    whatever location results, also none at all, the request is issued
    (it is the first thing after the first log record).  An unset default
    is [None], which the URL carries as the text ["None"]; the query is
    the empty string when the default is set to the empty string. *)
Theorem weather_location key default rg chat args w :
  location default args =
    match args with
    | [] => default
    | _ :: _ => Some (join " " args)
    end /\
  (exists rest : list event,
     events (weather lib key default rg chat args w).2 =
       (events w ++
        [EvLog INFO [Lit "Fetching weather for ";
                     Val (of_opt (location default args)); Lit "..."];
         EvHttpGet (weather_url (fmt (location default args)) (fmt key))] ++
        rest)%list) /\
  query_location (weather_url (fmt (location None [])) (fmt key)) = Some "None" /\
  query_location (weather_url (fmt (location (Some "") [])) (fmt key)) = Some "".
Proof.
  split; [by destruct args|]. split; [apply weather_events|]. done.
Qed.

(** C6, as amended.  [get_weather] always returns, and the handler then
    does one of three things: for an error message it replies with that
    text and does nothing else (no figure, no file, no photo); for a
    success record that pyplot renders ([plt.bar] and [plt.savefig]
    return) it writes the chart and replies with the photo and with no
    text; for a success record on which [plt.bar] or [plt.savefig]
    raises, that exception leaves the handler, which has no [try] of its
    own, and nothing is sent. *)
Theorem weather_one_reply key default rg chat args w :
  let city := location default args in
  exists v evs,
    get_weather lib key rg city w = (Ok v, after w evs) /\
    ((exists msg,
        v = PStr msg /\
        weather lib key default rg chat args w =
          (Ok tt, send (SentText (PStr msg)) (after w evs))) \/
     (exists d t h records,
        v = weather_result d t h /\
        render_answer lib city t h = (Ok tt, records) /\
        weather lib key default rg chat args w =
          (Ok tt,
           send (SentPhoto chat (Image (chart city t h)))
             (set_fs (fun files => <["weather.png" := Image (chart city t h)]> files)
                (after w (evs ++ map record_event records))))) \/
     (exists d t h e records,
        v = weather_result d t h /\
        render_answer lib city t h = (Raise e, records) /\
        weather lib key default rg chat args w =
          (Raise e,
           set_figs (fun gs => leaked_figure lib city t h :: gs)
             (after w (evs ++ map record_event records))))).
Proof.
  cbn zeta.
  destruct (get_weather_total key rg (location default args) w)
    as (v & evs & Hg & Hv).
  exists v, (request_events key (location default args) ++ evs)%list.
  split; [exact Hg|].
  destruct Hv as [d t h | | |].
  - destruct (render_answer lib (location default args) t h)
      as [[[]|e] records] eqn:Hb.
    + right. left. exists d, t, h, records.
      split; [done|]. split; [done|].
      rewrite (weather_photo _ _ _ _ _ _ _ _ _ _ _ Hg Hb).
      by rewrite after_after.
    + right. right. exists d, t, h, e, records.
      split; [done|]. split; [done|].
      rewrite (weather_render_raises _ _ _ _ _ _ _ _ _ _ _ _ Hg Hb).
      by rewrite after_after.
  - left. eauto using weather_text.
  - left. eauto using weather_text.
  - left. eauto using weather_text.
Qed.

(** C9.  What [get_weather] returns is a record of exactly the keys
    [description], [temperature], [humidity], or one of its three
    messages; either is truthy, so the handler's test is true exactly for
    the messages.  Hence a record is never replied as text (the outbox
    gains nothing or one photo), and a message never reaches the renderer
    (files and figures stay as they were). *)
Theorem outcome_classified key default rg chat args w :
  let city := location default args in
  let out := weather lib key default rg chat args w in
  exists v w1,
    get_weather lib key rg city w = (Ok v, w1) /\
    truthy v = true /\
    ((exists d t h,
        v = PDict [("description", PStr d); ("temperature", t); ("humidity", h)] /\
        is_error_outcome v = false /\
        (outbox out.2 = outbox w \/
         exists photo, outbox out.2 = (outbox w ++ [SentPhoto chat photo])%list)) \/
     (exists msg,
        v = PStr msg /\
        msg ∈ [invalid_location_message city; network_failure_message;
               unexpected_failure_message] /\
        is_error_outcome v = true /\
        out = (Ok tt, send (SentText v) w1) /\
        fs out.2 = fs w /\ figs out.2 = figs w)).
Proof.
  cbn zeta.
  destruct (get_weather_total key rg (location default args) w)
    as (v & evs & Hg & Hv).
  exists v. eexists. split; [exact Hg|].
  destruct Hv as [d t h | | |].
  - split; [reflexivity|]. left. exists d, t, h.
    split; [reflexivity|]. split; [reflexivity|].
    destruct (render_answer lib (location default args) t h)
      as [[[]|e] records] eqn:Hb.
    + rewrite (weather_photo _ _ _ _ _ _ _ _ _ _ _ Hg Hb). right. by eexists.
    + rewrite (weather_render_raises _ _ _ _ _ _ _ _ _ _ _ _ Hg Hb). by left.
  - split; [reflexivity|]. right. eexists. split; [reflexivity|].
    rewrite (weather_text _ _ _ _ _ _ _ _ Hg).
    split; [set_solver|]. done.
  - split; [reflexivity|]. right. eexists. split; [reflexivity|].
    rewrite (weather_text _ _ _ _ _ _ _ _ Hg).
    split; [set_solver|]. done.
  - split; [reflexivity|]. right. eexists. split; [reflexivity|].
    rewrite (weather_text _ _ _ _ _ _ _ _ Hg).
    split; [set_solver|]. done.
Qed.

(** * Beyond the claims *)

(** X1.  [get_weather] never raises, and what it returns is read off the
    answer of the transport by the decision table: the exception of
    [requests.get] or of the decoder by its class, a 4xx or 5xx status,
    and the payload.  Files, figures and outbox are left alone; the world
    only gains events. *)
Theorem fetch_refines_table key rg city w :
  exists evs,
    get_weather lib key rg city w =
      (Ok (fetch_table lib city (rg (weather_url (fmt city) (fmt key)))),
       after w (request_events key city ++ evs)).
Proof.
  destruct (get_weather_shape key rg city w) as (middle & msg & -> & _).
  eauto.
Qed.

(** X2.  One call of [get_weather] makes one HTTP request and writes two
    log records: the first events are the INFO record and the request,
    the last event is the record of the outcome (INFO for a result,
    WARNING for an invalid location, ERROR for a failure), and in between
    the payload is decoded and read, with no further request or record. *)
Theorem fetch_trace_shape key rg city w :
  exists v middle msg,
    get_weather lib key rg city w =
      (Ok v,
       after w
         ([EvLog INFO [Lit "Fetching weather for "; Val (of_opt city); Lit "..."];
           EvHttpGet (weather_url (fmt city) (fmt key))] ++
          middle ++ [EvLog (outcome_level city v) msg])) /\
    forallb is_payload_access middle = true /\
    ((exists d t h, v = weather_result d t h /\ outcome_level city v = INFO) \/
     (v = PStr (invalid_location_message city) /\ outcome_level city v = WARNING) \/
     ((v = PStr network_failure_message \/ v = PStr unexpected_failure_message) /\
      outcome_level city v = ERROR)).
Proof.
  destruct (get_weather_shape key rg city w) as (middle & msg & Hg & Hm).
  cbn zeta in Hg.
  destruct (get_weather_total key rg city w) as (v & evs & Hg' & Hv).
  rewrite Hg in Hg'. injection Hg' as Hv' _. rewrite Hv' in Hg.
  exists v, middle, msg. split; [exact Hg|]. split; [exact Hm|].
  destruct Hv as [d t h | | |].
  - left. by exists d, t, h.
  - right. left. cbn [outcome_level]. by rewrite String.eqb_refl.
  - right. right. eauto.
  - right. right. eauto.
Qed.

(** X3.  A success record is returned only for a response that was
    delivered with a status outside 4xx and 5xx, whose body decoded to a
    payload with [cod] equal to 200 and all three fields: the record then
    holds the capitalized description and the two values of the payload. *)
Theorem fetch_success_only_if key rg city d t h w :
  (get_weather lib key rg city w).1 = Ok (weather_result d t h) ->
  exists r data d0,
    rg (weather_url (fmt city) (fmt key)) = Ok r /\
    ~ 400 <= status_code r < 600 /\
    json r = Ok data /\
    cod_success data = true /\
    payload_fields data = Some (d0, t, h) /\
    d = str_capitalize lib d0.
Proof.
  intros H. apply returned_is_table in H. unfold fetch_table in H.
  destruct (rg (weather_url (fmt city) (fmt key))) as [r|e]; [|discriminate].
  destruct ((400 <=? status_code r) && (status_code r <? 600)) eqn:Hs;
    [discriminate|].
  destruct (json r) as [data|e] eqn:Hj; [|discriminate].
  unfold payload_table in H.
  destruct data as [| | | | | |fields]; try discriminate.
  destruct (cod_success (PDict fields)) eqn:Hc; [|discriminate].
  destruct (payload_fields (PDict fields)) as [[[d0 t0] h0]|] eqn:Hf;
    [|discriminate].
  injection H as -> -> ->. exists r, (PDict fields), d0.
  split; [done|]. split; [rewrite <- status_check; by rewrite Hs|]. done.
Qed.

(** X4.  The invalid-location message is returned only when a payload
    object was delivered (status outside 4xx and 5xx, body decoded) whose
    [cod] is absent or not 200: never for a failure of the transport or a
    malformed payload. *)
Theorem fetch_invalid_location_only_if key rg city w :
  (get_weather lib key rg city w).1 = Ok (PStr (invalid_location_message city)) ->
  exists r fields,
    rg (weather_url (fmt city) (fmt key)) = Ok r /\
    ~ 400 <= status_code r < 600 /\
    json r = Ok (PDict fields) /\
    cod_success (PDict fields) = false.
Proof.
  intros H. apply returned_is_table in H. unfold fetch_table in H.
  destruct (rg (weather_url (fmt city) (fmt key))) as [r|e];
    [|not_invalid H city].
  destruct ((400 <=? status_code r) && (status_code r <? 600)) eqn:Hs;
    [not_invalid H city|].
  destruct (json r) as [data|e] eqn:Hj; [|not_invalid H city].
  unfold payload_table in H.
  destruct data as [| | | | | |fields]; try not_invalid H city.
  destruct (cod_success (PDict fields)) eqn:Hc.
  - destruct (payload_fields (PDict fields)) as [[[d0 t0] h0]|];
      [discriminate | not_invalid H city].
  - exists r, fields.
    split; [done|]. split; [rewrite <- status_check; by rewrite Hs|]. done.
Qed.

(** X5.  A response with a status outside 4xx and 5xx whose body does not
    decode: the outcome follows the class of the decoder's exception, the
    network-failure message when it is a [RequestException], the
    unexpected-failure message otherwise; no field is read. *)
Theorem fetch_undecodable key rg city r e w :
  delivers key rg city r ->
  ~ 400 <= status_code r < 600 ->
  json r = Raise e ->
  get_weather lib key rg city w =
    (Ok (PStr (if is_RequestException e then network_failure_message
               else unexpected_failure_message)),
     after w (request_events key city ++
              [EvJson;
               EvLog ERROR [Lit (if is_RequestException e then "Request error: "
                                 else "Unexpected error: "); Err e]])).
Proof.
  intros Hg Hs Hj. rewrite (get_weather_undecoded _ _ _ _ _ _ Hg Hs Hj).
  destruct (is_RequestException e) eqn:He.
  - rewrite (except_request _ _ He), after_after, <- (assoc_L (++)). done.
  - rewrite (except_other _ _ He), after_after, <- (assoc_L (++)). done.
Qed.

(** ** The renderer on any value *)

(** X8.  Whatever value the renderer is given, it sends nothing and
    leaves every path but [weather.png] alone.  Either both keys are
    there and pyplot renders their values ([plt.bar] and [plt.savefig]
    return): then it returns, with the chart of the two values in
    [weather.png], the figures as before and no record logged but those
    of pyplot.  Or it raises, and then no file has changed. *)
Theorem render_frame city v w :
  let out := create_weather_graph lib city v w in
  outbox out.2 = outbox w /\
  delete "weather.png" (fs out.2) = delete "weather.png" (fs w) /\
  ((exists t h records,
      getitem v "temperature" = Ok t /\ getitem v "humidity" = Ok h /\
      render_answer lib city t h = (Ok tt, records) /\
      out.1 = Ok tt /\
      fs out.2 = <["weather.png" := Image (chart city t h)]> (fs w) /\
      figs out.2 = figs w /\
      events out.2 = (events w ++ map record_event records)%list) \/
   (exists e, out.1 = Raise e /\ fs out.2 = fs w)).
Proof.
  cbn zeta. unfold create_weather_graph, render_answer, chart. run.
  destruct (getitem v "temperature") as [t|e]; [|by eauto 10].
  destruct (getitem v "humidity") as [h|e]; [|by eauto 10].
  destruct w as [files gs evs out].
  destruct (pyplot_bar lib [t; h]) as [records|e] eqn:Hb; cbn; [|by eauto 10].
  match goal with
  | |- context [pyplot_savefig lib ?g] =>
      destruct (pyplot_savefig lib g) as [records'|e] eqn:Hs
  end; cbn; [|by eauto 10].
  split; [done|]. split; [apply delete_insert_eq|].
  left. exists t, h, (records ++ records')%list.
  rewrite Hb, Hs, map_app, (assoc_L (++)). done.
Qed.

(** ** The pipeline, end to end *)

(** X9.  A command with a location whose request is answered, with a
    status outside 4xx and 5xx, by a payload with [cod] 200 and the three
    fields, and whose temperature and humidity pyplot renders ([plt.bar]
    and [plt.savefig] return): the handler returns, the one thing it
    sends is the photo of the chart of this location and these two
    values, and that chart is what [weather.png] then holds. *)
Theorem weather_success_end_to_end
    key default rg chat args r data d t h records w :
  delivers key rg (location default args) r ->
  ~ 400 <= status_code r < 600 ->
  json r = Ok data ->
  cod_success data = true ->
  payload_fields data = Some (d, t, h) ->
  render_answer lib (location default args) t h = (Ok tt, records) ->
  exists w',
    weather lib key default rg chat args w = (Ok tt, w') /\
    outbox w' =
      (outbox w ++ [SentPhoto chat (Image (chart (location default args) t h))])%list /\
    fs w' = <["weather.png" := Image (chart (location default args) t h)]> (fs w) /\
    figs w' = figs w.
Proof.
  intros Hg Hs Hj Hc Hf Hb.
  eexists. split.
  - eapply weather_photo; [|exact Hb].
    rewrite (get_weather_decoded _ _ _ _ _ _ Hg Hs Hj). unfold try_except.
    rewrite (payload_success _ _ _ _ _ _ Hc Hf). reflexivity.
  - done.
Qed.

(** X10.  The handler keeps no state between commands: for a given
    command and transport, whether it returns or raises and what it
    sends are the same in every world, whatever files (an older
    [weather.png] too), figures, log and outbox it starts from.  It sends
    one message when it returns and none when it raises. *)
Theorem weather_stateless key default rg chat args :
  exists res replies,
    ((res = Ok tt /\ length replies = 1%nat) \/
     ((exists e, res = Raise e) /\ replies = [])) /\
    forall w,
      (weather lib key default rg chat args w).1 = res /\
      outbox (weather lib key default rg chat args w).2 = (outbox w ++ replies)%list.
Proof.
  pose proof (get_weather_table key rg (location default args)) as Hg.
  destruct (table_outcome (location default args)
              (rg (weather_url (fmt (location default args)) (fmt key))))
    as [d t h | | |].
  - destruct (render_answer lib (location default args) t h)
      as [[[]|e] records] eqn:Hb.
    + exists (Ok tt),
        [SentPhoto chat (Image (chart (location default args) t h))].
      split; [by left|]. intros w. destruct (Hg w) as (evs & Hw).
      by rewrite (weather_photo _ _ _ _ _ _ _ _ _ _ _ Hw Hb).
    + exists (Raise e), [].
      split; [right; eauto|]. intros w. destruct (Hg w) as (evs & Hw).
      rewrite (weather_render_raises _ _ _ _ _ _ _ _ _ _ _ _ Hw Hb).
      cbn. by rewrite app_nil_r.
  - eexists (Ok tt), [_]. split; [by left|].
    intros w. destruct (Hg w) as (evs & Hw).
    by rewrite (weather_text _ _ _ _ _ _ _ _ Hw).
  - eexists (Ok tt), [_]. split; [by left|].
    intros w. destruct (Hg w) as (evs & Hw).
    by rewrite (weather_text _ _ _ _ _ _ _ _ Hw).
  - eexists (Ok tt), [_]. split; [by left|].
    intros w. destruct (Hg w) as (evs & Hw).
    by rewrite (weather_text _ _ _ _ _ _ _ _ Hw).
Qed.

(** X11.  The description is fetched and logged but never shown: two
    answers of the transport that give results with the same temperature
    and humidity make the handler return the same, send the same, and
    leave the same files and figures, whatever the two descriptions. *)
Theorem description_never_shown key default rg rg' chat args d d' t h w :
  (get_weather lib key rg (location default args) w).1 = Ok (weather_result d t h) ->
  (get_weather lib key rg' (location default args) w).1 = Ok (weather_result d' t h) ->
  (weather lib key default rg chat args w).1
    = (weather lib key default rg' chat args w).1 /\
  outbox (weather lib key default rg chat args w).2
    = outbox (weather lib key default rg' chat args w).2 /\
  fs (weather lib key default rg chat args w).2
    = fs (weather lib key default rg' chat args w).2 /\
  figs (weather lib key default rg chat args w).2
    = figs (weather lib key default rg' chat args w).2.
Proof.
  intros H H'.
  destruct (get_weather_total key rg (location default args) w)
    as (v & evs & Hg & _).
  destruct (get_weather_total key rg' (location default args) w)
    as (v' & evs' & Hg' & _).
  rewrite Hg in H. rewrite Hg' in H'. cbn in H, H'.
  injection H as ->. injection H' as ->.
  destruct (render_answer lib (location default args) t h)
    as [[[]|e] records] eqn:Hb.
  - rewrite (weather_photo _ _ _ _ _ _ _ _ _ _ _ Hg Hb).
    by rewrite (weather_photo _ _ _ _ _ _ _ _ _ _ _ Hg' Hb).
  - rewrite (weather_render_raises _ _ _ _ _ _ _ _ _ _ _ _ Hg Hb).
    by rewrite (weather_render_raises _ _ _ _ _ _ _ _ _ _ _ _ Hg' Hb).
Qed.

(** X12.  A figure leaks on every command in which [plt.bar] or
    [plt.savefig] raises: the handler has opened the figure and
    [plt.close] is not reached.  After [n] such commands in a row, [n]
    more figures are open, and files and outbox are as they were. *)
Theorem failed_render_leaks_figure
    key default rg chat args d t h e records n w :
  fetch_table lib (location default args)
    (rg (weather_url (fmt (location default args)) (fmt key)))
    = weather_result d t h ->
  render_answer lib (location default args) t h = (Raise e, records) ->
  let w' := Nat.iter n (fun w0 => (weather lib key default rg chat args w0).2) w in
  figs w' = (replicate n (leaked_figure lib (location default args) t h)
             ++ figs w)%list /\
  fs w' = fs w /\
  outbox w' = outbox w.
Proof.
  intros Ht Hb. cbn zeta. induction n as [|n IH]; [done|].
  rewrite Nat.iter_succ.
  set (wn := Nat.iter n _ w) in *.
  destruct (get_weather_table key rg (location default args) wn) as (evs & Hg).
  rewrite Ht in Hg.
  rewrite (weather_render_raises _ _ _ _ _ _ _ _ _ _ _ _ Hg Hb).
  destruct IH as (Hf & Hs & Ho). cbn. by rewrite Hf, Hs, Ho.
Qed.

(** ** The static commands and [main] *)

(** X13.  Every handler that [main] adds, other than that of [weather],
    answers with one fixed text: whatever the chat, the words after the
    command and the world, it returns, writes one INFO log record, sends
    that text as its only message, requests nothing, and leaves files and
    figures alone. *)
Theorem static_handlers key default rg name (h : handler) :
  (name, h) ∈ main_handlers lib key default rg ->
  name <> "weather" ->
  exists text,
    text ∈ [intro_text; help_text; menu_text] /\
    forall chat args w,
      exists msg,
        h chat args w =
          (Ok tt, send (SentText (PStr text)) (after w [EvLog INFO msg])).
Proof.
  intros Hin Hname. unfold main_handlers in Hin.
  rewrite !elem_of_cons, elem_of_nil in Hin.
  destruct Hin as [H | [H | [H | [H | []]]]]; injection H as -> ->.
  - exists intro_text. split; [set_solver|]. intros chat args w. by eexists.
  - done.
  - exists help_text. split; [set_solver|]. intros chat args w. by eexists.
  - exists menu_text. split; [set_solver|]. intros chat args w. by eexists.
Qed.

(** X14.  The command surface is consistent: the commands that [main]
    registers with [set_my_commands] are, in the same order, those it
    adds handlers for; no command is registered twice; and the help text
    and the menu text name each of them. *)
Theorem commands_consistent key default rg :
  map fst (main_handlers lib key default rg) = map fst main_commands /\
  NoDup (map fst main_commands) /\
  Forall (fun name =>
            contains ("`/" +:+ name) help_text = true /\
            contains ("`/" +:+ name) menu_text = true)
    (map fst main_commands).
Proof.
  split; [reflexivity|]. split.
  - apply (bool_decide_unpack _). by vm_compute.
  - repeat constructor.
Qed.

End Proofs.

(** * Instances *)

Example capitalize_clear_sky : capitalize "clear sky" = "Clear sky".
Proof. reflexivity. Qed.

Example capitalize_lowers_rest : capitalize "bROKEN Clouds" = "Broken clouds".
Proof. reflexivity. Qed.

Example join_words : join " " ["New"; "York"; "City"] = "New York City".
Proof. reflexivity. Qed.

Example float_200_equals_int : eq_int (PFloat (S754_finite false 25 3)) 200 = true.
Proof. reflexivity. Qed.

Example true_is_not_200 : eq_int (PBool true) 200 = false.
Proof. reflexivity. Qed.

Example empty_weather_list_malformed :
  payload_fields (PDict [("cod", PInt 200); ("weather", PList []);
                         ("main", PDict [("temp", PInt 1); ("humidity", PInt 2)])])
  = None.
Proof. reflexivity. Qed.

Example description_not_a_string_malformed :
  payload_fields (PDict [("cod", PInt 200);
                         ("weather", PList [PDict [("description", PInt 800)]]);
                         ("main", PDict [("temp", PInt 1); ("humidity", PInt 2)])])
  = None.
Proof. reflexivity. Qed.

Example query_location_paris :
  query_location (weather_url "Paris" "k") = Some "Paris".
Proof. reflexivity. Qed.

Example query_location_stops_at_fragment :
  query_location (weather_url "Paris#x" "k") = Some "Paris".
Proof. reflexivity. Qed.

Example connection_refused_is_network_failure :
  (get_weather sample (Some "k") (failing (Exn ReqConnectionError []))
     (Some "Paris") empty_world).1
  = Ok (PStr "Unable to fetch weather due to a network issue. Please try again later.").
Proof. reflexivity. Qed.

Example render_negative_temperature :
  create_weather_graph sample (Some "Oslo")
    (weather_result "Snow" temp_minus_3_5 (PInt 100)) empty_world
  = (Ok tt,
     set_fs (fun files =>
       <["weather.png" := Image (chart (Some "Oslo") temp_minus_3_5 (PInt 100))]> files)
       empty_world).
Proof. reflexivity. Qed.

Example render_error_string_changes_nothing :
  create_weather_graph sample (Some "Paris") (PStr network_failure_message)
    empty_world
  = (Raise (Exn TypeError [PStr "temperature"]), empty_world).
Proof. reflexivity. Qed.

(** ** The client *)

Lemma fetch_success_witness :
  (get_weather sample (Some "k") (always (Response 200 (Ok shouting_payload)))
     (Some "Paris") empty_world).1
  = Ok (weather_result "Few clouds" temp_18_5 (PInt 60)).
Proof.
  apply (fetch_success sample (Some "k")
           (always (Response 200 (Ok shouting_payload)))
           (Some "Paris") (Response 200 (Ok shouting_payload)) shouting_payload
           "few CLOUDS" temp_18_5 (PInt 60) empty_world).
  - reflexivity.
  - cbn. lia.
  - reflexivity.
  - reflexivity.
  - reflexivity.
Defined.

Lemma fetch_malformed_witness :
  (exists w',
     get_weather sample (Some "k") (always (Response 200 (Ok no_temp_payload)))
       (Some "Paris") empty_world
     = (Ok (PStr unexpected_failure_message), w')) /\
  (exists w',
     get_weather sample (Some "k") (always (Response 200 (Ok warm_temp_payload)))
       (Some "Paris") empty_world
     = (Ok (weather_result "Clear sky" (PStr "warm") (PInt 60)), w')).
Proof.
  split.
  - apply (fetch_malformed sample (Some "k")
             (always (Response 200 (Ok no_temp_payload)))
             (Some "Paris") (Response 200 (Ok no_temp_payload)) no_temp_payload
             empty_world).
    + reflexivity.
    + cbn. lia.
    + reflexivity.
    + reflexivity.
  - apply (fetch_malformed sample (Some "k")
             (always (Response 200 (Ok warm_temp_payload)))
             (Some "Paris") (Response 200 (Ok warm_temp_payload))
             warm_temp_payload empty_world).
    + reflexivity.
    + cbn. lia.
    + reflexivity.
    + reflexivity.
Defined.

(** C4 as stated fails: a payload with [cod] 200 whose [main.temp] is
    there but malformed (the string ["warm"]) is returned as a success
    record, not as the unexpected-failure message. *)
Lemma fetch_malformed_temp_counterexample :
  let out := get_weather sample (Some "k")
               (always (Response 200 (Ok warm_temp_payload)))
               (Some "Paris") empty_world in
  cod_success warm_temp_payload = true /\
  finite_number (PStr "warm") = false /\
  out.1 = Ok (weather_result "Clear sky" (PStr "warm") (PInt 60)) /\
  out.1 <> Ok (PStr unexpected_failure_message).
Proof.
  cbn zeta. split; [reflexivity|]. split; [reflexivity|].
  split; [reflexivity | discriminate].
Qed.

Lemma fetch_cod_strict_witness :
  payload_fields string_cod_payload = Some ("clear sky", temp_18_5, PInt 60) /\
  (get_weather sample (Some "k") (always (Response 200 (Ok string_cod_payload)))
     (Some "Paris") empty_world).1
  = Ok (PStr "Unable to fetch weather for Paris. Please check the city name and try again.").
Proof.
  split; [reflexivity|].
  apply (fetch_cod_strict sample (Some "k")
           (always (Response 200 (Ok string_cod_payload))) (Some "Paris")
           (Response 200 (Ok string_cod_payload))
           [("cod", PStr "200");
            ("weather", PList [PDict [("description", PStr "clear sky")]]);
            ("main", PDict [("temp", temp_18_5); ("humidity", PInt 60)])]
           empty_world).
  - reflexivity.
  - cbn. lia.
  - reflexivity.
  - right. exists (PStr "200"). split; reflexivity.
Defined.

Lemma fetch_transport_failure_witness :
  (exists e,
     get_weather sample (Some "k") (always (Response 404 (Ok not_found_payload)))
       (Some "Paris") empty_world =
       (Ok (PStr network_failure_message),
        after empty_world
          (request_events (Some "k") (Some "Paris") ++
           [EvLog ERROR [Lit "Request error: "; Err e]])) /\
     forallb (fun ev => negb (is_payload_access ev))
       (request_events (Some "k") (Some "Paris") ++
        [EvLog ERROR [Lit "Request error: "; Err e]]) = true) /\
  (exists evs,
     get_weather sample (Some "k") (always (Response 600 (Ok paris_payload)))
       (Some "Paris") empty_world =
       (Ok (weather_result "Clear sky" temp_18_5 (PInt 60)),
        after empty_world
          (request_events (Some "k") (Some "Paris") ++ EvJson :: evs))).
Proof.
  split.
  - apply (proj1 (fetch_transport_failure sample (Some "k")
                    (always (Response 404 (Ok not_found_payload))) (Some "Paris")
                    empty_world)).
    right. exists (Response 404 (Ok not_found_payload)).
    split; [reflexivity | cbn; lia].
  - apply (proj2 (fetch_transport_failure sample (Some "k")
                    (always (Response 600 (Ok paris_payload))) (Some "Paris")
                    empty_world)
             (Response 600 (Ok paris_payload))).
    + reflexivity.
    + cbn. lia.
Defined.

(** C3 as stated fails for a status that is not 2xx and not 4xx or 5xx:
    [raise_for_status] lets a 300 response through, the payload is
    decoded and read, and the outcome is the success record. *)
Lemma fetch_non_2xx_counterexample :
  let r := Response 300 (Ok paris_payload) in
  let out := get_weather sample (Some "k") (always r) (Some "Paris") empty_world in
  ~ 200 <= status_code r < 300 /\
  out.1 = Ok (weather_result "Clear sky" temp_18_5 (PInt 60)) /\
  out.1 <> Ok (PStr network_failure_message) /\
  existsb is_payload_access (events out.2) = true.
Proof.
  cbn zeta. split; [cbn; lia|]. split; [reflexivity|].
  split; [discriminate | reflexivity].
Qed.

Lemma fetch_invalid_location_witness :
  (get_weather sample (Some "k") (always (Response 200 (Ok not_found_payload)))
     (Some "Atlantis") empty_world).1
  = Ok (PStr "Unable to fetch weather for Atlantis. Please check the city name and try again.") /\
  exists w',
    weather sample (Some "k") None (always (Response 200 (Ok not_found_payload))) 7
      ["Nowhereistan"] empty_world = (Ok tt, w') /\
    outbox w' =
      [SentText (PStr "Unable to fetch weather for Nowhereistan. Please check the city name and try again.")] /\
    fs w' = fs empty_world.
Proof.
  split.
  - apply (proj1 (fetch_invalid_location sample) (Some "k")
             (always (Response 200 (Ok not_found_payload))) (Some "Atlantis")
             (Response 200 (Ok not_found_payload))
             [("cod", PInt 404); ("message", PStr "city not found")]
             empty_world).
    + reflexivity.
    + cbn. lia.
    + reflexivity.
    + reflexivity.
  - apply (proj2 (fetch_invalid_location sample) (Some "k") None
             (always (Response 200 (Ok not_found_payload))) 7
             (Response 200 (Ok not_found_payload)) empty_world).
    + reflexivity.
    + cbn. lia.
    + reflexivity.
Defined.

Lemma fetch_success_only_if_witness :
  exists r data d0,
    always (Response 200 (Ok paris_payload))
      (weather_url (fmt (Some "Paris")) (fmt (Some "k"))) = Ok r /\
    ~ 400 <= status_code r < 600 /\
    json r = Ok data /\
    cod_success data = true /\
    payload_fields data = Some (d0, temp_18_5, PInt 60) /\
    "Clear sky" = str_capitalize sample d0.
Proof.
  apply (fetch_success_only_if sample (Some "k")
           (always (Response 200 (Ok paris_payload)))
           (Some "Paris") "Clear sky" temp_18_5 (PInt 60) empty_world).
  reflexivity.
Defined.

Lemma fetch_invalid_location_only_if_witness :
  exists r fields,
    always (Response 200 (Ok not_found_payload))
      (weather_url (fmt (Some "Atlantis")) (fmt (Some "k"))) = Ok r /\
    ~ 400 <= status_code r < 600 /\
    json r = Ok (PDict fields) /\
    cod_success (PDict fields) = false.
Proof.
  apply (fetch_invalid_location_only_if sample (Some "k")
           (always (Response 200 (Ok not_found_payload))) (Some "Atlantis")
           empty_world).
  reflexivity.
Defined.

Lemma fetch_undecodable_witness :
  get_weather sample (Some "k")
    (always (Response 200 (Raise (Exn ReqJSONDecodeError []))))
    (Some "Paris") empty_world =
    (Ok (PStr network_failure_message),
     after empty_world
       (request_events (Some "k") (Some "Paris") ++
        [EvJson;
         EvLog ERROR [Lit "Request error: "; Err (Exn ReqJSONDecodeError [])]])).
Proof.
  apply (fetch_undecodable sample (Some "k")
           (always (Response 200 (Raise (Exn ReqJSONDecodeError []))))
           (Some "Paris") (Response 200 (Raise (Exn ReqJSONDecodeError [])))
           (Exn ReqJSONDecodeError []) empty_world).
  - reflexivity.
  - cbn. lia.
  - reflexivity.
Defined.

(** ** The renderer *)


Lemma render_last_write_wins_witness :
  exists w1 w2,
    create_weather_graph sample (Some "Oslo")
      (weather_result "Snow" temp_minus_3_5 (PInt 100)) empty_world = (Ok tt, w1) /\
    fs w1 !! "weather.png"
      = Some (Image (chart (Some "Oslo") temp_minus_3_5 (PInt 100))) /\
    (create_weather_graph sample (Some "Paris")
       (weather_result "Clear sky" temp_18_5 (PInt 60)) w1 = (Ok tt, w2) /\
     fs w2 !! "weather.png"
       = Some (Image (chart (Some "Paris") temp_18_5 (PInt 60))) /\
     fs w2 = <["weather.png" := Image (chart (Some "Paris") temp_18_5 (PInt 60))]>
               (fs empty_world)) /\
    delete "weather.png" (fs w2) = delete "weather.png" (fs empty_world).
Proof.
  apply (render_last_write_wins sample (Some "Oslo") "Snow" temp_minus_3_5
           (PInt 100) (Some "Paris") "Clear sky" temp_18_5 (PInt 60) []
           empty_world).
  reflexivity.
Defined.

(** C8 as stated fails: after a call that wrote the chart of Oslo, a call
    with the temperature 2^63 raises, and the file holds the chart of
    Oslo, not that of the second result. *)
Lemma render_second_call_raises_counterexample :
  let first := create_weather_graph sample (Some "Oslo")
                 (weather_result "Snow" temp_minus_3_5 (PInt 100)) empty_world in
  let second := create_weather_graph sample (Some "Paris")
                  (weather_result "Clear sky" huge_temp (PInt 60)) first.2 in
  first.1 = Ok tt /\
  finite_number huge_temp = true /\
  percentage (PInt 60) = true /\
  second.1 = Raise (Exn OverflowError [huge_temp; PInt 60]) /\
  fs second.2 !! "weather.png"
    = Some (Image (chart (Some "Oslo") temp_minus_3_5 (PInt 100))) /\
  fs second.2 !! "weather.png"
    <> Some (Image (chart (Some "Paris") huge_temp (PInt 60))).
Proof.
  cbn zeta. split; [reflexivity|]. split; [reflexivity|].
  split; [reflexivity|]. split; [reflexivity|].
  split; [reflexivity | discriminate].
Qed.

(** ** The pipeline *)

(** C5 as stated fails: with no words and the default unset, the request
    that is issued asks for the location ["None"], not for the empty
    string. *)
Lemma weather_unset_default_counterexample :
  let out := weather sample (Some "k") None (failing (Exn ReqConnectionError []))
               7 [] empty_world in
  exists url,
    events out.2 !! 1%nat = Some (EvHttpGet url) /\
    query_location url = Some "None" /\
    query_location url <> Some "".
Proof.
  cbn zeta. eexists. split; [reflexivity|]. split; [reflexivity | discriminate].
Qed.

(** C6 as stated fails: the payload with a [null] temperature passes
    [get_weather] as a success, [plt.bar] raises on it, the exception
    leaves the handler and no reply is sent. *)
Lemma weather_render_error_counterexample :
  let rg := always (Response 200 (Ok null_temp_payload)) in
  let out := weather sample (Some "k") None rg 7 ["Paris"] empty_world in
  (get_weather sample (Some "k") rg (Some "Paris") empty_world).1
    = Ok (weather_result "Clear sky" PNone (PInt 60)) /\
  out.1 = Raise (Exn TypeError [PNone; PInt 60]) /\
  outbox out.2 = [].
Proof. cbn zeta. split; [reflexivity|]. split; reflexivity. Qed.

Lemma weather_success_end_to_end_witness :
  exists w',
    weather sample (Some "k") None (always (Response 200 (Ok paris_payload))) 7
      ["Paris"] empty_world = (Ok tt, w') /\
    outbox w' =
      [SentPhoto 7 (Image (chart (Some "Paris") temp_18_5 (PInt 60)))] /\
    fs w' = <["weather.png" := Image (chart (Some "Paris") temp_18_5 (PInt 60))]>
              (fs empty_world) /\
    figs w' = figs empty_world.
Proof.
  apply (weather_success_end_to_end sample (Some "k") None
           (always (Response 200 (Ok paris_payload))) 7 ["Paris"]
           (Response 200 (Ok paris_payload)) paris_payload "clear sky"
           temp_18_5 (PInt 60) [] empty_world).
  - reflexivity.
  - cbn. lia.
  - reflexivity.
  - reflexivity.
  - reflexivity.
  - reflexivity.
Defined.

Lemma description_never_shown_witness :
  let rg := always (Response 200 (Ok paris_payload)) in
  let rg' := always (Response 200 (Ok rainy_payload)) in
  (weather sample (Some "k") None rg 7 ["Paris"] empty_world).1
    = (weather sample (Some "k") None rg' 7 ["Paris"] empty_world).1 /\
  outbox (weather sample (Some "k") None rg 7 ["Paris"] empty_world).2
    = outbox (weather sample (Some "k") None rg' 7 ["Paris"] empty_world).2 /\
  fs (weather sample (Some "k") None rg 7 ["Paris"] empty_world).2
    = fs (weather sample (Some "k") None rg' 7 ["Paris"] empty_world).2 /\
  figs (weather sample (Some "k") None rg 7 ["Paris"] empty_world).2
    = figs (weather sample (Some "k") None rg' 7 ["Paris"] empty_world).2.
Proof.
  cbn zeta.
  apply (description_never_shown sample (Some "k") None
           (always (Response 200 (Ok paris_payload)))
           (always (Response 200 (Ok rainy_payload))) 7 ["Paris"]
           "Clear sky" "Light rain" temp_18_5 (PInt 60) empty_world).
  - reflexivity.
  - reflexivity.
Defined.

Lemma failed_render_leaks_figure_witness :
  let w' := Nat.iter 3
              (fun w0 => (weather sample (Some "k") None
                            (always (Response 200 (Ok null_temp_payload))) 7
                            ["Paris"] w0).2) empty_world in
  figs w' = (replicate 3 (new_figure (Some (8, 6))) ++ figs empty_world)%list /\
  fs w' = fs empty_world /\
  outbox w' = outbox empty_world.
Proof.
  apply (failed_render_leaks_figure sample (Some "k") None
           (always (Response 200 (Ok null_temp_payload))) 7 ["Paris"]
           "Clear sky" PNone (PInt 60) (Exn TypeError [PNone; PInt 60]) [] 3
           empty_world).
  - reflexivity.
  - reflexivity.
Defined.

Lemma static_handlers_witness :
  exists text,
    text ∈ [intro_text; help_text; menu_text] /\
    forall chat args w,
      exists msg,
        (fun chat_id (_ : list string) => help_command chat_id) chat args w =
          (Ok tt, send (SentText (PStr text)) (after w [EvLog INFO msg])).
Proof.
  apply (static_handlers sample (Some "k") None (failing (Exn ReqTimeout []))
           "help" (fun chat_id _ => help_command chat_id)).
  - unfold main_handlers. rewrite !elem_of_cons. right. right. left. reflexivity.
  - discriminate.
Defined.
